(** * NI 16550 transceiver driver (drivers/tty/serial/8250/8250_ni16550.c)

    A shallow embedding of the driver and the properties of its register
    arithmetic, its access ordering and its cached RS-485 configuration.

    Conventions.
    - C integers are [Z]; every conversion to a fixed-width unsigned type is
      written out ([u8], [u32], [ulong]).
    - Register access goes through an interface ([Bus]), as the driver goes
      through [port->serial_in]/[port->serial_out] and [inb]/[outb].
    - A kernel [BUG()] is the result [None]; a returning call is
      [Some (value, state)].
    - [dev_dbg]/[dev_vdbg] only format log text and are left out. *)

From Stdlib Require Import ZArith List Bool Lia.
Import ListNotations.
Local Open Scope Z_scope.

(** ** Constants the driver takes from kernel headers

    [SER_RS485_*] come from <linux/serial.h>, [UART_*] from
    <linux/serial_reg.h>, [EINVAL] from <asm-generic/errno-base.h> and
    [BITS_PER_LONG] from <asm/bitsperlong.h>.  None of them is defined in the
    driver, so the development is parametric in them. *)
Class Headers : Type := {
  SER_RS485_ENABLED : Z;
  SER_RS485_RTS_ON_SEND : Z;
  SER_RS485_RX_DURING_TX : Z;
  EINVAL : Z;
  UART_LCR : Z;
  UART_LCR_CONF_MODE_B : Z;
  UART_EFR : Z;
  UART_EFR_ECB : Z;
  UART_SCR : Z;
  UART_ICR : Z;
  UART_CPR : Z;
  BITS_PER_LONG : Z
}.

(** The values mainline Linux gives them on a 64-bit build. *)
Definition linux_headers : Headers := {|
  SER_RS485_ENABLED := Z.shiftl 1 0;
  SER_RS485_RTS_ON_SEND := Z.shiftl 1 1;
  SER_RS485_RX_DURING_TX := Z.shiftl 1 4;
  EINVAL := 22;
  UART_LCR := 3;
  UART_LCR_CONF_MODE_B := 0xBF;
  UART_EFR := 2;
  UART_EFR_ECB := 0x10;
  UART_SCR := 7;
  UART_ICR := 5;
  UART_CPR := 0x01;
  BITS_PER_LONG := 64
|}.

(** ** Fixed-width unsigned conversions *)

Definition u8 (x : Z) : Z := x mod 2 ^ 8.
Definition u32 (x : Z) : Z := x mod 2 ^ 32.
Definition ulong `{Headers} (x : Z) : Z := x mod 2 ^ BITS_PER_LONG.

(** The truth value of a C expression [flags & bit]. *)
Definition c_and_test (flags bit : Z) : bool := negb (Z.land flags bit =? 0).

(** ** Driver constants (lines 26-59) *)

Definition NI16550_PCR_OFFSET : Z := 0x0F.
Definition NI16550_PCR_RS422 : Z := 0x00.
Definition NI16550_PCR_ECHO_RS485 : Z := 0x01.
Definition NI16550_PCR_DTR_RS485 : Z := 0x02.
Definition NI16550_PCR_AUTO_RS485 : Z := 0x03.
Definition NI16550_PCR_WIRE_MODE_MASK : Z := 0x03.
Definition NI16550_PCR_TXVR_ENABLE_BIT : Z := Z.shiftl 1 3.
Definition NI16550_PCR_RS485_TERMINATION_BIT : Z := Z.shiftl 1 6.

Definition NI16550_PMR_OFFSET : Z := 0x0E.
Definition NI16550_PMR_CAP_MASK : Z := 0x03.
Definition NI16550_PMR_NOT_IMPL : Z := 0x00.
Definition NI16550_PMR_CAP_RS232 : Z := 0x01.
Definition NI16550_PMR_CAP_RS485 : Z := 0x02.
Definition NI16550_PMR_CAP_DUAL : Z := 0x03.
Definition NI16550_PMR_MODE_MASK : Z := 0x10.
Definition NI16550_PMR_MODE_RS232 : Z := 0x00.
Definition NI16550_PMR_MODE_RS485 : Z := 0x10.

(** ** Register access *)

(** One access as seen on the bus. *)
Inductive access : Type :=
| RegRead (addr value : Z)
| RegWrite (addr value : Z).

Definition is_write (a : access) : bool :=
  match a with RegWrite _ _ => true | RegRead _ _ => false end.

(** A byte-wide register space: a read returns what the hardware answers
    (and may change the hardware), a write hands it a value. *)
Class Bus (H : Type) : Type := {
  bus_read : Z -> H -> Z * H;
  bus_write : Z -> Z -> H -> H
}.

(** Registers that behave like memory: a read returns the last value written
    and changes nothing. *)
Definition regfile : Type := Z -> Z.

Definition regfile_set (addr value : Z) (r : regfile) : regfile :=
  fun a => if a =? addr then value else r a.

#[export] Instance regfile_bus : Bus regfile := {|
  bus_read addr r := (r addr, r);
  bus_write := regfile_set
|}.

(** Any register space with a record of the accesses made to it, oldest
    first. *)
Record recorded (H : Type) : Type := mkRecorded {
  inner : H;
  accesses : list access
}.
Arguments mkRecorded {H} _ _.
Arguments inner {H} _.
Arguments accesses {H} _.

#[export] Instance recorded_bus {H : Type} `{Bus H} : Bus (recorded H) := {|
  bus_read addr r :=
    let (v, h) := bus_read addr (inner r) in
    (v, mkRecorded h (accesses r ++ [RegRead addr v]));
  bus_write addr v r :=
    mkRecorded (bus_write addr v (inner r)) (accesses r ++ [RegWrite addr v])
|}.

(** ** Kernel computations: state passing with [BUG()] *)

Definition kern (S A : Type) : Type := S -> option (A * S).

Definition ret {S A : Type} (a : A) : kern S A := fun s => Some (a, s).

Definition bind {S A B : Type} (m : kern S A) (k : A -> kern S B) : kern S B :=
  fun s => match m s with
           | Some (a, s') => k a s'
           | None => None
           end.

Definition BUG {S A : Type} : kern S A := fun _ => None.

Notation "x <- m ;; k" := (bind m (fun x => k))
  (at level 61, m at next level, right associativity).
Notation "m ;;; k" := (bind m (fun _ => k))
  (at level 61, right associativity).

(** ** Data of the port

    [struct serial_rs485] (<linux/serial.h>): the flag word and the fields
    the driver never reads. *)
Record serial_rs485 : Type := mkRs485 {
  flags : Z;
  delay_rts_before_send : Z;
  delay_rts_after_send : Z;
  padding : list Z
}.

(** Addresses of the driver's functions, one type per C signature. *)
Inductive txvr_fn : Type :=
| ni16550_enable_transceivers_addr
| ni16550_disable_transceivers_addr.

Inductive rs485_config_fn : Type :=
| ni16550_config_rs485_addr.

(** [struct txvr_ops]. *)
Record txvr_ops_t : Type := mkTxvrOps {
  enable_transceivers : txvr_fn;
  disable_transceivers : txvr_fn
}.

(** The part of [struct uart_port] the driver touches; [hw] is what
    [serial_in]/[serial_out] reach, a pointer field is [None] when NULL. *)
Record uart_port (H : Type) : Type := mkPort {
  hw : H;
  txvr_ops : option txvr_ops_t;
  rs485_config : option rs485_config_fn;
  rs485 : serial_rs485
}.
Arguments mkPort {H} _ _ _ _.
Arguments hw {H} _.
Arguments txvr_ops {H} _.
Arguments rs485_config {H} _.
Arguments rs485 {H} _.

Section Driver.
Context {hdr : Headers}.
Context {H : Type} {bus : Bus H}.

(** [port->serial_in(port, offset)] *)
Definition serial_in (offset : Z) : kern (uart_port H) Z :=
  fun port =>
    let (v, h) := bus_read offset (hw port) in
    Some (v, mkPort h (txvr_ops port) (rs485_config port) (rs485 port)).

(** [port->serial_out(port, offset, value)] *)
Definition serial_out (offset value : Z) : kern (uart_port H) unit :=
  fun port =>
    Some (tt, mkPort (bus_write offset value (hw port))
                     (txvr_ops port) (rs485_config port) (rs485 port)).

(** [inb(port)]: returns a [u8]. *)
Definition inb (addr : Z) : kern H Z :=
  fun h => let (v, h') := bus_read addr h in Some (u8 v, h').

(** [outb(value, port)]: the value parameter is a [u8]. *)
Definition outb (value addr : Z) : kern H unit :=
  fun h => Some (tt, bus_write addr (u8 value) h).

(** Lines 62-76. *)
Definition ni16550_enable_transceivers : kern (uart_port H) Z :=
  pcr <- serial_in NI16550_PCR_OFFSET ;;
  let pcr := u8 pcr in
  let pcr := u8 (Z.lor pcr NI16550_PCR_TXVR_ENABLE_BIT) in
  serial_out NI16550_PCR_OFFSET pcr ;;;
  ret 0.

(** Lines 78-92. *)
Definition ni16550_disable_transceivers : kern (uart_port H) Z :=
  pcr <- serial_in NI16550_PCR_OFFSET ;;
  let pcr := u8 pcr in
  let pcr := u8 (Z.land pcr (Z.lnot NI16550_PCR_TXVR_ENABLE_BIT)) in
  serial_out NI16550_PCR_OFFSET pcr ;;;
  ret 0.

(** [port->rs485 = *rs485] *)
Definition set_rs485 (r : serial_rs485) : kern (uart_port H) unit :=
  fun port => Some (tt, mkPort (hw port) (txvr_ops port) (rs485_config port) r).

(** Lines 94-146.  [rs485] is the pointer argument, [None] when NULL. *)
Definition ni16550_config_rs485 (rs485 : option serial_rs485)
  : kern (uart_port H) Z :=
  match rs485 with
  | None => BUG
  | Some cfg =>
    pcr <- serial_in NI16550_PCR_OFFSET ;;
    let pcr := u8 pcr in
    let pcr := u8 (Z.land pcr (Z.lnot NI16550_PCR_WIRE_MODE_MASK)) in
    let finish (pcr : Z) : kern (uart_port H) Z :=
      serial_out NI16550_PCR_OFFSET pcr ;;;
      set_rs485 cfg ;;;
      ret 0 in
    if c_and_test (flags cfg) SER_RS485_ENABLED then
      if c_and_test (flags cfg) SER_RS485_RX_DURING_TX
         && c_and_test (flags cfg) SER_RS485_RTS_ON_SEND
      then ret (- EINVAL)
      else if c_and_test (flags cfg) SER_RS485_RX_DURING_TX then
        finish (u8 (Z.lor pcr NI16550_PCR_ECHO_RS485))
      else if c_and_test (flags cfg) SER_RS485_RTS_ON_SEND then
        finish (u8 (Z.lor pcr NI16550_PCR_AUTO_RS485))
      else
        finish (u8 (Z.lor pcr NI16550_PCR_DTR_RS485))
    else
      finish (u8 (Z.lor pcr NI16550_PCR_RS422))
  end.

(** Lines 148-169. *)
Definition is_rs232_mode (iobase : Z) : kern H bool :=
  pmr <- inb (ulong (iobase + NI16550_PMR_OFFSET)) ;;
  let pmr := u8 pmr in
  if Z.land pmr NI16550_PMR_CAP_MASK =? NI16550_PMR_NOT_IMPL then
    ret false
  else if Z.land pmr NI16550_PMR_CAP_MASK =? NI16550_PMR_CAP_DUAL then
    ret (Z.land pmr NI16550_PMR_MODE_MASK =? NI16550_PMR_MODE_RS232)
  else
    ret (Z.land pmr NI16550_PMR_CAP_MASK =? NI16550_PMR_CAP_RS232).

(** Lines 171-194. *)
Definition ni16550_config_prescaler (iobase prescaler : Z) : kern H unit :=
  let prescaler := u8 prescaler in
  lcr_value <- inb (ulong (iobase + UART_LCR)) ;;
  let lcr_value := u8 lcr_value in
  outb UART_LCR_CONF_MODE_B (ulong (iobase + UART_LCR)) ;;;
  efr_value <- inb (ulong (iobase + UART_EFR)) ;;
  let efr_value := u8 efr_value in
  let efr_value := u8 (Z.lor efr_value UART_EFR_ECB) in
  outb efr_value (ulong (iobase + UART_EFR)) ;;;
  outb lcr_value (ulong (iobase + UART_LCR)) ;;;
  outb UART_CPR (ulong (iobase + UART_SCR)) ;;;
  outb prescaler (ulong (iobase + UART_ICR)).

(** Lines 196-199. *)
Definition ni16550_txvr_ops : txvr_ops_t := {|
  enable_transceivers := ni16550_enable_transceivers_addr;
  disable_transceivers := ni16550_disable_transceivers_addr
|}.

(** Lines 201-209. *)
Definition ni16550_port_setup : kern (uart_port H) unit :=
  fun port =>
    let port := mkPort (hw port) (Some ni16550_txvr_ops)
                       (rs485_config port) (rs485 port) in
    let port := mkPort (hw port) (txvr_ops port)
                       (Some ni16550_config_rs485_addr) (rs485 port) in
    let port :=
      mkPort (hw port) (txvr_ops port) (rs485_config port)
             (mkRs485 (u32 (Z.lor SER_RS485_ENABLED SER_RS485_RTS_ON_SEND))
                      (delay_rts_before_send (rs485 port))
                      (delay_rts_after_send (rs485 port))
                      (padding (rs485 port))) in
    Some (tt, port).

(** Calling through a stored function pointer. *)
Definition call_txvr (f : txvr_fn) : kern (uart_port H) Z :=
  match f with
  | ni16550_enable_transceivers_addr => ni16550_enable_transceivers
  | ni16550_disable_transceivers_addr => ni16550_disable_transceivers
  end.

Definition call_rs485_config (f : rs485_config_fn)
  : option serial_rs485 -> kern (uart_port H) Z :=
  match f with
  | ni16550_config_rs485_addr => ni16550_config_rs485
  end.

End Driver.

(** ** Vocabulary of the properties *)

Section Vocabulary.
Context {hdr : Headers}.

(** The combination the driver refuses: RS-485 enabled with both
    receive-during-transmit and RTS-on-send. *)
Definition invalid_two_wire (cfg : serial_rs485) : bool :=
  c_and_test (flags cfg) SER_RS485_ENABLED
  && (c_and_test (flags cfg) SER_RS485_RX_DURING_TX
      && c_and_test (flags cfg) SER_RS485_RTS_ON_SEND).

(** The wire-mode encoding as the specification words it: 4-wire when not
    enabled, otherwise echo when receiving during transmit, otherwise auto
    when RTS follows send, otherwise DTR-controlled. *)
Definition wire_mode (cfg : serial_rs485) : Z :=
  if negb (c_and_test (flags cfg) SER_RS485_ENABLED) then NI16550_PCR_RS422
  else if c_and_test (flags cfg) SER_RS485_RX_DURING_TX
       then NI16550_PCR_ECHO_RS485
  else if c_and_test (flags cfg) SER_RS485_RTS_ON_SEND
       then NI16550_PCR_AUTO_RS485
  else NI16550_PCR_DTR_RS485.

(** The byte the driver builds from the byte [b] read from the PCR. *)
Definition pcr_with_mode (b : Z) (cfg : serial_rs485) : Z :=
  Z.lor (Z.land b (Z.lnot NI16550_PCR_WIRE_MODE_MASK)) (wire_mode cfg).

Context {H : Type} {bus : Bus H}.

(** One call of [ni16550_config_rs485] per element of [cfgs], in order; the
    result is the list of the values returned. *)
Fixpoint config_calls (cfgs : list serial_rs485)
  : kern (uart_port H) (list Z) :=
  match cfgs with
  | [] => ret []
  | cfg :: rest =>
    r <- ni16550_config_rs485 (Some cfg) ;;
    rs <- config_calls rest ;;
    ret (r :: rs)
  end.

(** The argument of the last call that returned 0, [init] when none did. *)
Definition last_success (init : serial_rs485)
  (calls : list (serial_rs485 * Z)) : serial_rs485 :=
  fold_left (fun acc call => if snd call =? 0 then fst call else acc)
            calls init.

End Vocabulary.

(** The value register [a] holds after running [m], when [m] returns. *)
Definition reg_after {A : Type} (m : kern (uart_port regfile) A)
  (port : uart_port regfile) (a : Z) : option Z :=
  match m port with
  | Some (_, port') => Some (hw port' a)
  | None => None
  end.

(** ** Sample inputs

    A PCR holding 0x4A (termination and enable bits set, DTR wire mode) in a
    register space that behaves like memory, with and without a record of the
    accesses, and a few configurations under the Linux flag values. *)

Definition sample_regs : regfile := fun _ => 0x4A.

Definition sample_cached : serial_rs485 := mkRs485 0 7 9 [].

Definition sample_port : uart_port regfile :=
  mkPort sample_regs None None sample_cached.

Definition sample_recorded_port : uart_port (recorded regfile) :=
  mkPort (mkRecorded sample_regs []) None None sample_cached.

(** [SER_RS485_ENABLED | SER_RS485_RTS_ON_SEND] *)
Definition cfg_auto : serial_rs485 := mkRs485 0x03 1 2 [].

(** [SER_RS485_ENABLED | SER_RS485_RX_DURING_TX] *)
Definition cfg_echo : serial_rs485 := mkRs485 0x11 0 0 [].

(** [SER_RS485_ENABLED | SER_RS485_RTS_ON_SEND | SER_RS485_RX_DURING_TX] *)
Definition cfg_invalid : serial_rs485 := mkRs485 0x13 3 4 [].

(** What a call on the recorded sample port returned, the accesses it made
    and the configuration it left cached. *)
Definition observed (m : kern (uart_port (recorded regfile)) Z)
  : option (Z * list access * serial_rs485) :=
  match m sample_recorded_port with
  | Some (r, port') => Some (r, accesses (hw port'), rs485 port')
  | None => None
  end.

(** ** Vocabulary of the properties of composed calls *)

(** Two ports over memory-like registers that agree on every register and
    on every field. *)
Definition same_port (p q : uart_port regfile) : Prop :=
  (forall a, hw p a = hw q a)
  /\ txvr_ops p = txvr_ops q
  /\ rs485_config p = rs485_config q
  /\ rs485 p = rs485 q.

(** Both computations return, and leave the same port. *)
Definition same_state {A B : Type}
  (m1 : kern (uart_port regfile) A) (m2 : kern (uart_port regfile) B)
  (port : uart_port regfile) : Prop :=
  match m1 port, m2 port with
  | Some (_, p1), Some (_, p2) => same_port p1 p2
  | _, _ => False
  end.

(** Both computations return, and leave the same registers. *)
Definition same_regs {A B : Type}
  (m1 : kern regfile A) (m2 : kern regfile B) (r : regfile) : Prop :=
  match m1 r, m2 r with
  | Some (_, r1), Some (_, r2) => forall a, r1 a = r2 a
  | _, _ => False
  end.

(** A call the serial core makes into the driver through the pointers that
    [ni16550_port_setup] stores. *)
Inductive port_op : Type :=
| OpEnable
| OpDisable
| OpConfig (cfg : serial_rs485).

Section Calls.
Context {hdr : Headers}.
Context {H : Type} {bus : Bus H}.

Definition run_op (o : port_op) : kern (uart_port H) Z :=
  match o with
  | OpEnable => call_txvr (enable_transceivers ni16550_txvr_ops)
  | OpDisable => call_txvr (disable_transceivers ni16550_txvr_ops)
  | OpConfig cfg => call_rs485_config ni16550_config_rs485_addr (Some cfg)
  end.

(** The calls of [ops] one after the other. *)
Fixpoint run_ops (ops : list port_op) : kern (uart_port H) unit :=
  match ops with
  | [] => ret tt
  | o :: rest => run_op o ;;; run_ops rest
  end.

End Calls.

(** The wire-mode field of the PCR is the encoding of the cached
    configuration. *)
Definition coherent {hdr : Headers} (port : uart_port regfile) : Prop :=
  Z.land (hw port NI16550_PCR_OFFSET) NI16550_PCR_WIRE_MODE_MASK
  = wire_mode (rs485 port).

(** An access to the PCR that, when a write, carries a byte. *)
Definition pcr_byte_access (a : access) : Prop :=
  match a with
  | RegRead addr _ => addr = NI16550_PCR_OFFSET
  | RegWrite addr v => addr = NI16550_PCR_OFFSET /\ 0 <= v < 256
  end.

(** * Properties *)

(** ** Byte arithmetic *)

Lemma testbit_u8 (x i : Z) :
  Z.testbit (u8 x) i = (i <? 8) && Z.testbit x i.
Proof. unfold u8. apply Z.testbit_mod_pow2. lia. Qed.

Lemma u8_range (x : Z) : 0 <= u8 x < 256.
Proof. unfold u8. change (2 ^ 8) with 256. apply Z.mod_pos_bound. lia. Qed.

Lemma u8_small (x : Z) : 0 <= x < 256 -> u8 x = x.
Proof.
  intros Hx. unfold u8. change (2 ^ 8) with 256. apply Z.mod_small, Hx.
Qed.

Lemma u8_idem (x : Z) : u8 (u8 x) = u8 x.
Proof. apply u8_small, u8_range. Qed.

(** Rewrites the bit at position [i] of a byte expression into a boolean
    formula over the bits of its leaves. *)
Ltac bit_formula :=
  repeat first
    [ rewrite testbit_u8
    | rewrite Z.land_spec
    | rewrite Z.lor_spec
    | rewrite Z.lnot_spec by lia ].

Ltac by_bits i Hi :=
  apply Z.bits_inj'; intros i Hi; bit_formula.

Lemma u8_land (x m : Z) : u8 (Z.land (u8 x) m) = Z.land (u8 x) m.
Proof. by_bits i Hi. destruct (i <? 8); reflexivity. Qed.

Lemma u8_lor (x c : Z) : u8 c = c -> u8 (Z.lor (u8 x) c) = Z.lor (u8 x) c.
Proof.
  intros Hc. by_bits i Hi.
  rewrite <- Hc at 2. rewrite testbit_u8.
  destruct (i <? 8); reflexivity.
Qed.

Lemma testbit_enable_bit (i : Z) :
  Z.testbit NI16550_PCR_TXVR_ENABLE_BIT i = (i =? 3).
Proof.
  change NI16550_PCR_TXVR_ENABLE_BIT with (2 ^ 3).
  rewrite Z.pow2_bits_eqb by lia. apply Z.eqb_sym.
Qed.

Lemma testbit_wire_mode_mask (i : Z) :
  0 <= i -> Z.testbit NI16550_PCR_WIRE_MODE_MASK i = (i <? 2).
Proof.
  intros Hi. change NI16550_PCR_WIRE_MODE_MASK with (Z.ones 2).
  apply Z.testbit_ones_nonneg; lia.
Qed.

(** Setting the enable bit in a byte touches bit 3 only. *)
Lemma enable_bit_set (b i : Z) :
  0 <= i ->
  Z.testbit (Z.lor b NI16550_PCR_TXVR_ENABLE_BIT) i
  = if i =? 3 then true else Z.testbit b i.
Proof.
  intros Hi. rewrite Z.lor_spec, testbit_enable_bit.
  destruct (i =? 3); [apply orb_true_r | apply orb_false_r].
Qed.

(** Clearing the enable bit in a byte touches bit 3 only. *)
Lemma enable_bit_clear (b i : Z) :
  0 <= i ->
  Z.testbit (Z.land b (Z.lnot NI16550_PCR_TXVR_ENABLE_BIT)) i
  = if i =? 3 then false else Z.testbit b i.
Proof.
  intros Hi. rewrite Z.land_spec, Z.lnot_spec, testbit_enable_bit by lia.
  destruct (i =? 3); [apply andb_false_r | apply andb_true_r].
Qed.

(** ** Transceiver enable control *)

(** The two functions on any register space, as a function of what the read
    of the PCR returns. *)
Lemma enable_transceivers_run {H : Type} {bus : Bus H} (port : uart_port H) :
  ni16550_enable_transceivers port =
  Some (0, mkPort
             (bus_write NI16550_PCR_OFFSET
                (Z.lor (u8 (fst (bus_read NI16550_PCR_OFFSET (hw port))))
                       NI16550_PCR_TXVR_ENABLE_BIT)
                (snd (bus_read NI16550_PCR_OFFSET (hw port))))
             (txvr_ops port) (rs485_config port) (rs485 port)).
Proof.
  unfold ni16550_enable_transceivers, bind, serial_in, serial_out, ret.
  destruct (bus_read NI16550_PCR_OFFSET (hw port)) as [v h].
  cbn [hw txvr_ops rs485_config rs485 fst snd].
  rewrite u8_lor by reflexivity. reflexivity.
Qed.

Lemma disable_transceivers_run {H : Type} {bus : Bus H} (port : uart_port H) :
  ni16550_disable_transceivers port =
  Some (0, mkPort
             (bus_write NI16550_PCR_OFFSET
                (Z.land (u8 (fst (bus_read NI16550_PCR_OFFSET (hw port))))
                        (Z.lnot NI16550_PCR_TXVR_ENABLE_BIT))
                (snd (bus_read NI16550_PCR_OFFSET (hw port))))
             (txvr_ops port) (rs485_config port) (rs485 port)).
Proof.
  unfold ni16550_disable_transceivers, bind, serial_in, serial_out, ret.
  destruct (bus_read NI16550_PCR_OFFSET (hw port)) as [v h].
  cbn [hw txvr_ops rs485_config rs485 fst snd].
  rewrite u8_land. reflexivity.
Qed.

(** What a recorded register space does on a read followed by a write. *)
Lemma recorded_read {H : Type} {bus : Bus H} (a : Z) (r : recorded H) :
  bus_read a r =
  (fst (bus_read a (inner r)),
   mkRecorded (snd (bus_read a (inner r)))
              (accesses r ++ [RegRead a (fst (bus_read a (inner r)))])).
Proof. cbn. destruct (bus_read a (inner r)); reflexivity. Qed.

Lemma recorded_write {H : Type} {bus : Bus H} (a v : Z) (r : recorded H) :
  bus_write a v r =
  mkRecorded (bus_write a v (inner r)) (accesses r ++ [RegWrite a v]).
Proof. reflexivity. Qed.

(** C7: on every register space and for every value the PCR read returns,
    enable writes back that byte with the enable bit set, disable writes it
    back with the enable bit cleared, every other bit of the byte is as read,
    each call makes exactly one read followed by one write of the PCR, and
    both return 0. *)
Theorem transceivers_read_modify_write :
  forall (H : Type) (bus : Bus H) (port : uart_port (recorded H)),
    let v := fst (bus_read NI16550_PCR_OFFSET (inner (hw port))) in
    let h := snd (bus_read NI16550_PCR_OFFSET (inner (hw port))) in
    let after w :=
      mkPort (mkRecorded (bus_write NI16550_PCR_OFFSET w h)
                (accesses (hw port)
                   ++ [RegRead NI16550_PCR_OFFSET v;
                       RegWrite NI16550_PCR_OFFSET w]))
             (txvr_ops port) (rs485_config port) (rs485 port) in
    let w_on := Z.lor (u8 v) NI16550_PCR_TXVR_ENABLE_BIT in
    let w_off := Z.land (u8 v) (Z.lnot NI16550_PCR_TXVR_ENABLE_BIT) in
    ni16550_enable_transceivers port = Some (0, after w_on)
    /\ ni16550_disable_transceivers port = Some (0, after w_off)
    /\ (forall i, 0 <= i ->
          Z.testbit w_on i = if i =? 3 then true else Z.testbit (u8 v) i)
    /\ (forall i, 0 <= i ->
          Z.testbit w_off i = if i =? 3 then false else Z.testbit (u8 v) i).
Proof.
  intros H bus port v h after w_on w_off.
  split; [| split; [| split]].
  - rewrite enable_transceivers_run, recorded_read, recorded_write.
    cbn [fst snd inner accesses]. rewrite <- app_assoc. reflexivity.
  - rewrite disable_transceivers_run, recorded_read, recorded_write.
    cbn [fst snd inner accesses]. rewrite <- app_assoc. reflexivity.
  - intros i Hi. apply enable_bit_set, Hi.
  - intros i Hi. apply enable_bit_clear, Hi.
Qed.

(** ** Enable control on registers that behave like memory *)

Lemma reg_after_bind_enable {A : Type} (k : kern (uart_port regfile) A)
  (port : uart_port regfile) (a : Z) :
  reg_after (ni16550_enable_transceivers ;;; k) port a =
  reg_after k
    (mkPort (regfile_set NI16550_PCR_OFFSET
               (Z.lor (u8 (hw port NI16550_PCR_OFFSET))
                      NI16550_PCR_TXVR_ENABLE_BIT) (hw port))
            (txvr_ops port) (rs485_config port) (rs485 port)) a.
Proof.
  unfold reg_after, bind. rewrite enable_transceivers_run. reflexivity.
Qed.

Lemma reg_after_bind_disable {A : Type} (k : kern (uart_port regfile) A)
  (port : uart_port regfile) (a : Z) :
  reg_after (ni16550_disable_transceivers ;;; k) port a =
  reg_after k
    (mkPort (regfile_set NI16550_PCR_OFFSET
               (Z.land (u8 (hw port NI16550_PCR_OFFSET))
                       (Z.lnot NI16550_PCR_TXVR_ENABLE_BIT)) (hw port))
            (txvr_ops port) (rs485_config port) (rs485 port)) a.
Proof.
  unfold reg_after, bind. rewrite disable_transceivers_run. reflexivity.
Qed.

Lemma reg_after_enable (port : uart_port regfile) (a : Z) :
  reg_after ni16550_enable_transceivers port a =
  Some (regfile_set NI16550_PCR_OFFSET
          (Z.lor (u8 (hw port NI16550_PCR_OFFSET)) NI16550_PCR_TXVR_ENABLE_BIT)
          (hw port) a).
Proof. unfold reg_after. rewrite enable_transceivers_run. reflexivity. Qed.

Lemma reg_after_disable (port : uart_port regfile) (a : Z) :
  reg_after ni16550_disable_transceivers port a =
  Some (regfile_set NI16550_PCR_OFFSET
          (Z.land (u8 (hw port NI16550_PCR_OFFSET))
                  (Z.lnot NI16550_PCR_TXVR_ENABLE_BIT))
          (hw port) a).
Proof. unfold reg_after. rewrite disable_transceivers_run. reflexivity. Qed.

Lemma regfile_set_same (a v : Z) (r : regfile) : regfile_set a v r a = v.
Proof. unfold regfile_set. rewrite Z.eqb_refl. reflexivity. Qed.

Lemma regfile_set_twice (a v w : Z) (r : regfile) (b : Z) :
  regfile_set a w (regfile_set a v r) b = regfile_set a w r b.
Proof. unfold regfile_set. destruct (b =? a); reflexivity. Qed.

(** Decides the comparisons on a bit index left in a boolean goal. *)
Ltac index_cases :=
  repeat match goal with
         | |- context [?a <? ?b] => destruct (Z.ltb_spec a b)
         | |- context [?a =? ?b] => destruct (Z.eqb_spec a b)
         end;
  try lia.

(** C9: on registers that behave like memory, enabling twice leaves every
    register as enabling once does, likewise for disabling, and after enable,
    disable, enable the wire-mode bits of the PCR are the ones it held
    before. *)
Theorem transceivers_idempotent :
  forall (port : uart_port regfile),
    let pcr := hw port NI16550_PCR_OFFSET in
    reg_after ni16550_enable_transceivers port NI16550_PCR_OFFSET
      = Some (Z.lor (u8 pcr) NI16550_PCR_TXVR_ENABLE_BIT)
    /\ reg_after ni16550_disable_transceivers port NI16550_PCR_OFFSET
      = Some (Z.land (u8 pcr) (Z.lnot NI16550_PCR_TXVR_ENABLE_BIT))
    /\ (forall a,
          reg_after
            (ni16550_enable_transceivers ;;; ni16550_enable_transceivers)
            port a
          = reg_after ni16550_enable_transceivers port a)
    /\ (forall a,
          reg_after
            (ni16550_disable_transceivers ;;; ni16550_disable_transceivers)
            port a
          = reg_after ni16550_disable_transceivers port a)
    /\ exists w,
         reg_after (ni16550_enable_transceivers ;;;
                    ni16550_disable_transceivers ;;;
                    ni16550_enable_transceivers) port NI16550_PCR_OFFSET
         = Some w
         /\ Z.land w NI16550_PCR_WIRE_MODE_MASK
            = Z.land pcr NI16550_PCR_WIRE_MODE_MASK.
Proof.
  intros port pcr.
  split; [| split; [| split; [| split]]].
  - rewrite reg_after_enable, regfile_set_same. reflexivity.
  - rewrite reg_after_disable, regfile_set_same. reflexivity.
  - intros a. rewrite reg_after_bind_enable, !reg_after_enable.
    cbn [hw]. rewrite regfile_set_same, regfile_set_twice.
    rewrite u8_lor by reflexivity.
    rewrite <- Z.lor_assoc, Z.lor_diag. reflexivity.
  - intros a. rewrite reg_after_bind_disable, !reg_after_disable.
    cbn [hw]. rewrite regfile_set_same, regfile_set_twice.
    rewrite u8_land.
    rewrite <- Z.land_assoc, Z.land_diag. reflexivity.
  - eexists. split.
    + rewrite reg_after_bind_enable, reg_after_bind_disable, reg_after_enable.
      cbn [hw]. rewrite !regfile_set_same. reflexivity.
    + fold pcr. by_bits i Hi.
      rewrite !testbit_enable_bit, testbit_wire_mode_mask by lia.
      index_cases; destruct (Z.testbit pcr i); reflexivity.
Qed.

(** ** Wire-mode configuration *)

Section WireMode.
Context {hdr : Headers}.

Lemma wire_mode_in_mask (cfg : serial_rs485) :
  Z.land (wire_mode cfg) NI16550_PCR_WIRE_MODE_MASK = wire_mode cfg.
Proof.
  unfold wire_mode.
  destruct (c_and_test (flags cfg) SER_RS485_ENABLED),
           (c_and_test (flags cfg) SER_RS485_RX_DURING_TX),
           (c_and_test (flags cfg) SER_RS485_RTS_ON_SEND); reflexivity.
Qed.

Lemma pcr_with_mode_field (b : Z) (cfg : serial_rs485) :
  Z.land (pcr_with_mode b cfg) NI16550_PCR_WIRE_MODE_MASK = wire_mode cfg.
Proof.
  unfold pcr_with_mode.
  rewrite Z.land_lor_distr_l, <- Z.land_assoc.
  rewrite (Z.land_comm (Z.lnot _)), Z.land_lnot_diag, Z.land_0_r, Z.lor_0_l.
  apply wire_mode_in_mask.
Qed.

Lemma pcr_with_mode_frame (b : Z) (cfg : serial_rs485) (i : Z) :
  0 <= i -> Z.testbit NI16550_PCR_WIRE_MODE_MASK i = false ->
  Z.testbit (pcr_with_mode b cfg) i = Z.testbit b i.
Proof.
  intros Hi Hout. unfold pcr_with_mode.
  rewrite Z.lor_spec, Z.land_spec, Z.lnot_spec, Hout by lia.
  rewrite <- wire_mode_in_mask, Z.land_spec, Hout.
  rewrite andb_false_r, orb_false_r. apply andb_true_r.
Qed.

Context {H : Type} {bus : Bus H}.

(** The whole call as a function of what the read of the PCR returns. *)
Lemma config_rs485_run (cfg : serial_rs485) (port : uart_port H) :
  ni16550_config_rs485 (Some cfg) port =
  let v := fst (bus_read NI16550_PCR_OFFSET (hw port)) in
  let h := snd (bus_read NI16550_PCR_OFFSET (hw port)) in
  if invalid_two_wire cfg then
    Some (- EINVAL, mkPort h (txvr_ops port) (rs485_config port) (rs485 port))
  else
    Some (0, mkPort (bus_write NI16550_PCR_OFFSET (pcr_with_mode (u8 v) cfg) h)
                    (txvr_ops port) (rs485_config port) cfg).
Proof.
  unfold ni16550_config_rs485, invalid_two_wire, pcr_with_mode, wire_mode.
  unfold bind, serial_in, serial_out, set_rs485, ret.
  destruct (bus_read NI16550_PCR_OFFSET (hw port)) as [v h].
  cbn [fst snd].
  destruct (c_and_test (flags cfg) SER_RS485_ENABLED),
           (c_and_test (flags cfg) SER_RS485_RX_DURING_TX),
           (c_and_test (flags cfg) SER_RS485_RTS_ON_SEND);
    cbn [andb negb hw txvr_ops rs485_config rs485];
    rewrite ?u8_lor by reflexivity; rewrite ?u8_land; reflexivity.
Qed.

End WireMode.

(** C1: for every configuration the driver accepts, the call returns 0 after
    one read and one write of the PCR, and the wire-mode field of the byte
    written is 4-wire (0) when the enabled flag is clear, whatever the other
    flags; echo (1) when enabled with receive-during-transmit; auto (3) when
    enabled with RTS-on-send and no receive-during-transmit; DTR-controlled
    (2) when enabled with neither. *)
Theorem config_rs485_wire_mode :
  forall (hdr : Headers) (H : Type) (bus : Bus H)
         (port : uart_port (recorded H)) (cfg : serial_rs485),
    invalid_two_wire cfg = false ->
    let v := fst (bus_read NI16550_PCR_OFFSET (inner (hw port))) in
    let h := snd (bus_read NI16550_PCR_OFFSET (inner (hw port))) in
    let enabled := c_and_test (flags cfg) SER_RS485_ENABLED in
    let rx_during_tx := c_and_test (flags cfg) SER_RS485_RX_DURING_TX in
    let rts_on_send := c_and_test (flags cfg) SER_RS485_RTS_ON_SEND in
    exists w,
      ni16550_config_rs485 (Some cfg) port =
      Some (0, mkPort (mkRecorded (bus_write NI16550_PCR_OFFSET w h)
                         (accesses (hw port)
                            ++ [RegRead NI16550_PCR_OFFSET v;
                                RegWrite NI16550_PCR_OFFSET w]))
                      (txvr_ops port) (rs485_config port) cfg)
      /\ (enabled = false ->
          Z.land w NI16550_PCR_WIRE_MODE_MASK = NI16550_PCR_RS422)
      /\ (enabled = true -> rx_during_tx = true ->
          Z.land w NI16550_PCR_WIRE_MODE_MASK = NI16550_PCR_ECHO_RS485)
      /\ (enabled = true -> rx_during_tx = false -> rts_on_send = true ->
          Z.land w NI16550_PCR_WIRE_MODE_MASK = NI16550_PCR_AUTO_RS485)
      /\ (enabled = true -> rx_during_tx = false -> rts_on_send = false ->
          Z.land w NI16550_PCR_WIRE_MODE_MASK = NI16550_PCR_DTR_RS485).
Proof.
  intros hdr H bus port cfg Hok v h enabled rx_during_tx rts_on_send.
  exists (pcr_with_mode (u8 v) cfg). split.
  - rewrite config_rs485_run, Hok. cbv zeta.
    rewrite recorded_read, recorded_write.
    cbn [fst snd inner accesses]. rewrite <- app_assoc. reflexivity.
  - rewrite pcr_with_mode_field. unfold wire_mode.
    fold enabled rx_during_tx rts_on_send.
    repeat split; intros; subst enabled rx_during_tx rts_on_send;
      repeat match goal with
             | E : c_and_test _ _ = _ |- _ => rewrite E; clear E
             end;
      reflexivity.
Qed.

(** C6: for every accepted configuration the byte written to the PCR has the
    chosen encoding in its wire-mode field and agrees with the byte read at
    the start of the call on every bit outside the wire-mode mask, the
    transceiver-enable and termination bits among them. *)
Theorem config_rs485_frame :
  forall (hdr : Headers) (H : Type) (bus : Bus H)
         (port : uart_port (recorded H)) (cfg : serial_rs485),
    invalid_two_wire cfg = false ->
    let v := fst (bus_read NI16550_PCR_OFFSET (inner (hw port))) in
    let h := snd (bus_read NI16550_PCR_OFFSET (inner (hw port))) in
    exists w,
      ni16550_config_rs485 (Some cfg) port =
      Some (0, mkPort (mkRecorded (bus_write NI16550_PCR_OFFSET w h)
                         (accesses (hw port)
                            ++ [RegRead NI16550_PCR_OFFSET v;
                                RegWrite NI16550_PCR_OFFSET w]))
                      (txvr_ops port) (rs485_config port) cfg)
      /\ Z.land w NI16550_PCR_WIRE_MODE_MASK = wire_mode cfg
      /\ (forall i, 0 <= i ->
            Z.testbit NI16550_PCR_WIRE_MODE_MASK i = false ->
            Z.testbit w i = Z.testbit (u8 v) i)
      /\ Z.land w NI16550_PCR_TXVR_ENABLE_BIT
         = Z.land (u8 v) NI16550_PCR_TXVR_ENABLE_BIT
      /\ Z.land w NI16550_PCR_RS485_TERMINATION_BIT
         = Z.land (u8 v) NI16550_PCR_RS485_TERMINATION_BIT.
Proof.
  intros hdr H bus port cfg Hok v h.
  assert (Hframe : forall m,
             Z.land m NI16550_PCR_WIRE_MODE_MASK = 0 ->
             Z.land (pcr_with_mode (u8 v) cfg) m = Z.land (u8 v) m).
  { intros m Hm. apply Z.bits_inj'; intros i Hi.
    rewrite !Z.land_spec.
    destruct (Z.testbit m i) eqn:Em; [| rewrite !andb_false_r; reflexivity].
    rewrite !andb_true_r. apply pcr_with_mode_frame; [exact Hi |].
    apply (f_equal (fun x => Z.testbit x i)) in Hm.
    rewrite Z.land_spec, Em, Z.bits_0, andb_true_l in Hm. exact Hm. }
  exists (pcr_with_mode (u8 v) cfg). split; [| split; [| split; [| split]]].
  - rewrite config_rs485_run, Hok. cbv zeta.
    rewrite recorded_read, recorded_write.
    cbn [fst snd inner accesses]. rewrite <- app_assoc. reflexivity.
  - apply pcr_with_mode_field.
  - intros i Hi Hout. apply pcr_with_mode_frame; assumption.
  - apply Hframe. reflexivity.
  - apply Hframe. reflexivity.
Qed.

(** C2: provided [EINVAL] is not zero, the call returns [-EINVAL] exactly
    when the enabled, receive-during-transmit and RTS-on-send flags are all
    set; on that path the only access is the initial read of the PCR, so no
    register is written and the register space is as that read left it, and
    the cached configuration is the one before the call; every other
    configuration returns 0. *)
Theorem config_rs485_rejection :
  forall (hdr : Headers) (H : Type) (bus : Bus H)
         (port : uart_port (recorded H)) (cfg : serial_rs485),
    EINVAL <> 0 ->
    let v := fst (bus_read NI16550_PCR_OFFSET (inner (hw port))) in
    let all_three :=
      c_and_test (flags cfg) SER_RS485_ENABLED = true
      /\ c_and_test (flags cfg) SER_RS485_RX_DURING_TX = true
      /\ c_and_test (flags cfg) SER_RS485_RTS_ON_SEND = true in
    exists r port',
      ni16550_config_rs485 (Some cfg) port = Some (r, port')
      /\ (r = - EINVAL <-> all_three)
      /\ (all_three ->
          accesses (hw port')
            = accesses (hw port) ++ [RegRead NI16550_PCR_OFFSET v]
          /\ filter is_write (accesses (hw port'))
             = filter is_write (accesses (hw port))
          /\ inner (hw port')
             = snd (bus_read NI16550_PCR_OFFSET (inner (hw port)))
          /\ rs485 port' = rs485 port)
      /\ (~ all_three -> r = 0).
Proof.
  intros hdr H bus port cfg Hnz v all_three.
  assert (Hinv : invalid_two_wire cfg = true <-> all_three).
  { unfold invalid_two_wire, all_three. rewrite !andb_true_iff. tauto. }
  rewrite config_rs485_run. cbv zeta.
  destruct (invalid_two_wire cfg) eqn:E.
  - eexists _, _. split; [reflexivity |].
    split; [| split].
    + split; intros _; [apply Hinv; reflexivity | reflexivity].
    + intros _. rewrite recorded_read. cbn [hw accesses inner rs485 snd].
      split; [reflexivity | split; [| split; reflexivity]].
      rewrite filter_app. cbn. apply app_nil_r.
    + intros Hn. exfalso. apply Hn, Hinv. reflexivity.
  - assert (Hn : ~ all_three).
    { intros Ha. apply Hinv in Ha. discriminate. }
    eexists _, _. split; [reflexivity |].
    split; [| split].
    + split; intros Hr; [exfalso; lia | contradiction].
    + intros Ha. contradiction.
    + intros _. reflexivity.
Qed.

(** ** The cached configuration over a sequence of calls *)

Section Cache.
Context {hdr : Headers}.
Context {H : Type} {bus : Bus H}.

Lemma config_rs485_step (cfg : serial_rs485) (port : uart_port H) :
  EINVAL <> 0 ->
  exists r port',
    ni16550_config_rs485 (Some cfg) port = Some (r, port')
    /\ rs485 port' = (if r =? 0 then cfg else rs485 port).
Proof.
  intros Hnz. rewrite config_rs485_run. cbv zeta.
  destruct (invalid_two_wire cfg).
  - eexists _, _. split; [reflexivity |].
    destruct (Z.eqb_spec (- EINVAL) 0); [lia | reflexivity].
  - eexists _, _. split; reflexivity.
Qed.

Lemma config_calls_cache (cfgs : list serial_rs485) :
  EINVAL <> 0 ->
  forall port : uart_port H,
  exists rets port',
    config_calls cfgs port = Some (rets, port')
    /\ length rets = length cfgs
    /\ rs485 port' = last_success (rs485 port) (combine cfgs rets).
Proof.
  intros Hnz. induction cfgs as [| cfg rest IH]; intros port.
  - exists [], port. repeat split.
  - destruct (config_rs485_step cfg port Hnz) as (r & port1 & Hrun & Hcache).
    destruct (IH port1) as (rets & port' & Hrest & Hlen & Hlast).
    exists (r :: rets), port'.
    split; [| split].
    + cbn [config_calls]. unfold bind at 1. rewrite Hrun.
      unfold bind at 1. rewrite Hrest. reflexivity.
    + cbn [length]. rewrite Hlen. reflexivity.
    + rewrite Hlast, Hcache. reflexivity.
Qed.

End Cache.

(** C3: provided [EINVAL] is not zero, any sequence of calls returns, and
    afterwards the cached configuration is the argument of the last call that
    returned 0 (the configuration cached before the sequence when none did);
    a single call that returns 0 leaves the cache equal to its whole
    argument, and one that returns anything else leaves it as it was. *)
Theorem config_rs485_cache_last_success :
  forall (hdr : Headers) (H : Type) (bus : Bus H),
    EINVAL <> 0 ->
    (forall (cfgs : list serial_rs485) (port : uart_port H),
        exists rets port',
          config_calls cfgs port = Some (rets, port')
          /\ length rets = length cfgs
          /\ rs485 port' = last_success (rs485 port) (combine cfgs rets))
    /\ (forall (cfg : serial_rs485) (port : uart_port H),
          exists r port',
            ni16550_config_rs485 (Some cfg) port = Some (r, port')
            /\ (r = 0 -> rs485 port' = cfg)
            /\ (r <> 0 -> rs485 port' = rs485 port)).
Proof.
  intros hdr H bus Hnz. split.
  - intros cfgs port. apply config_calls_cache, Hnz.
  - intros cfg port.
    destruct (config_rs485_step cfg port Hnz) as (r & port' & Hrun & Hcache).
    exists r, port'. split; [exact Hrun |].
    destruct (Z.eqb_spec r 0); split; intros; congruence.
Qed.

(** ** Capability detection *)

(** C4: the result is decided by the byte read from the capability register
    alone: false when its two class bits are 00, whatever the other bits;
    when they are 11, true exactly when bit 4 is clear; true when they are
    01; false when they are 10.  The call makes that one read and returns. *)
Theorem is_rs232_mode_decision :
  forall (hdr : Headers) (H : Type) (bus : Bus H) (iobase : Z) (h : H),
    let addr := ulong (iobase + NI16550_PMR_OFFSET) in
    let pmr := u8 (fst (bus_read addr h)) in
    let class := Z.land pmr NI16550_PMR_CAP_MASK in
    exists b,
      is_rs232_mode iobase h = Some (b, snd (bus_read addr h))
      /\ (class = NI16550_PMR_NOT_IMPL -> b = false)
      /\ (class = NI16550_PMR_CAP_DUAL -> b = negb (Z.testbit pmr 4))
      /\ (class = NI16550_PMR_CAP_RS232 -> b = true)
      /\ (class = NI16550_PMR_CAP_RS485 -> b = false)
      /\ (class = NI16550_PMR_NOT_IMPL \/ class = NI16550_PMR_CAP_RS232
          \/ class = NI16550_PMR_CAP_RS485 \/ class = NI16550_PMR_CAP_DUAL).
Proof.
  intros hdr H bus iobase h addr pmr class.
  assert (Hmode : (Z.land pmr NI16550_PMR_MODE_MASK =? NI16550_PMR_MODE_RS232)
                  = negb (Z.testbit pmr 4)).
  { change NI16550_PMR_MODE_MASK with (2 ^ 4).
    destruct (Z.testbit pmr 4) eqn:E.
    - apply Z.eqb_neq. intros Hz.
      apply (f_equal (fun x => Z.testbit x 4)) in Hz.
      rewrite Z.land_spec, E, Z.pow2_bits_eqb in Hz by lia. discriminate.
    - apply Z.eqb_eq. apply Z.bits_inj'; intros i Hi.
      rewrite Z.land_spec, Z.pow2_bits_eqb, Z.bits_0 by lia.
      destruct (Z.eqb_spec 4 i) as [<- |]; [rewrite E |];
        auto using andb_false_r. }
  assert (Hclass : 0 <= class < 4).
  { unfold class. change NI16550_PMR_CAP_MASK with (Z.ones 2).
    rewrite Z.land_ones by lia. apply Z.mod_pos_bound. lia. }
  unfold is_rs232_mode, bind, inb, ret. fold addr.
  destruct (bus_read addr h) as [v h'] eqn:Eread.
  cbn [fst snd] in *. rewrite u8_idem. fold pmr. fold class.
  unfold NI16550_PMR_NOT_IMPL, NI16550_PMR_CAP_DUAL, NI16550_PMR_CAP_RS232,
    NI16550_PMR_CAP_RS485 in *.
  destruct (Z.eqb_spec class 0) as [E0 | E0].
  - exists false. repeat split; intros; try reflexivity; try lia.
  - destruct (Z.eqb_spec class 3) as [E3 | E3].
    + eexists. split; [reflexivity |]. rewrite Hmode.
      repeat split; intros; try reflexivity; try lia.
    + eexists. split; [reflexivity |].
      destruct (Z.eqb_spec class 1) as [E1 | E1];
        repeat split; intros; try reflexivity; try lia.
Qed.

(** ** Prescaler configuration *)

(** C5: on every register space the call makes exactly these seven accesses,
    in this order: read LCR; write the configuration-mode-B value to LCR;
    read EFR; write EFR with the byte read ORed with the enhanced-mode bit;
    write the byte first read from LCR back to LCR; write the prescaler
    selector to SCR; write the prescaler to ICR.  The value written to EFR
    keeps every bit of the byte read, and nothing writes EFR afterwards. *)
Theorem config_prescaler_access_order :
  forall (hdr : Headers) (H : Type) (bus : Bus H)
         (iobase prescaler : Z) (r : recorded H),
    let lcr := ulong (iobase + UART_LCR) in
    let efr := ulong (iobase + UART_EFR) in
    let scr := ulong (iobase + UART_SCR) in
    let icr := ulong (iobase + UART_ICR) in
    let lcr_value := fst (bus_read lcr (inner r)) in
    let h1 := snd (bus_read lcr (inner r)) in
    let h2 := bus_write lcr (u8 UART_LCR_CONF_MODE_B) h1 in
    let efr_value := fst (bus_read efr h2) in
    let h3 := snd (bus_read efr h2) in
    let efr_new := u8 (Z.lor (u8 efr_value) UART_EFR_ECB) in
    let h4 := bus_write efr efr_new h3 in
    let h5 := bus_write lcr (u8 lcr_value) h4 in
    let h6 := bus_write scr (u8 UART_CPR) h5 in
    let h7 := bus_write icr (u8 prescaler) h6 in
    ni16550_config_prescaler iobase prescaler r =
    Some (tt, mkRecorded h7
                (accesses r
                   ++ [RegRead lcr lcr_value;
                       RegWrite lcr (u8 UART_LCR_CONF_MODE_B);
                       RegRead efr efr_value;
                       RegWrite efr efr_new;
                       RegWrite lcr (u8 lcr_value);
                       RegWrite scr (u8 UART_CPR);
                       RegWrite icr (u8 prescaler)]))
    /\ (forall i, 0 <= i ->
          Z.testbit efr_new i
          = (i <? 8) && (Z.testbit efr_value i || Z.testbit UART_EFR_ECB i)).
Proof.
  intros hdr H bus iobase prescaler r lcr efr scr icr
         lcr_value h1 h2 efr_value h3 efr_new h4 h5 h6 h7.
  split.
  - unfold ni16550_config_prescaler, bind, inb, outb.
    fold lcr efr scr icr.
    rewrite recorded_read. fold lcr_value h1.
    rewrite recorded_write. cbn [inner accesses]. fold h2.
    rewrite recorded_read. cbn [inner accesses]. fold efr_value h3.
    rewrite !recorded_write. cbn [inner accesses].
    rewrite !u8_idem. fold efr_new. fold h4 h5 h6 h7.
    rewrite <- !app_assoc. reflexivity.
  - intros i Hi. unfold efr_new. bit_formula.
    destruct (i <? 8); reflexivity.
Qed.

(** ** Port setup *)

(** C8: port setup stores the driver's operation table, whose two entries
    call the enable and the disable function, and the address of the
    configuration function, and sets the cached flag word to
    [SER_RS485_ENABLED | SER_RS485_RTS_ON_SEND]; when the two are non-zero
    32-bit values that share no bit with [SER_RS485_RX_DURING_TX], that word
    reads as enabled, RTS-on-send, no receive-during-transmit. *)
Theorem port_setup_binds_and_seeds :
  forall (hdr : Headers) (H : Type) (bus : Bus H) (port : uart_port H),
    0 < SER_RS485_ENABLED < 2 ^ 32 ->
    0 < SER_RS485_RTS_ON_SEND < 2 ^ 32 ->
    Z.land (Z.lor SER_RS485_ENABLED SER_RS485_RTS_ON_SEND)
           SER_RS485_RX_DURING_TX = 0 ->
    exists port',
      ni16550_port_setup port = Some (tt, port')
      /\ txvr_ops port' = Some ni16550_txvr_ops
      /\ call_txvr (H := H) (enable_transceivers ni16550_txvr_ops)
         = ni16550_enable_transceivers
      /\ call_txvr (H := H) (disable_transceivers ni16550_txvr_ops)
         = ni16550_disable_transceivers
      /\ rs485_config port' = Some ni16550_config_rs485_addr
      /\ call_rs485_config (H := H) ni16550_config_rs485_addr
         = ni16550_config_rs485
      /\ flags (rs485 port')
         = Z.lor SER_RS485_ENABLED SER_RS485_RTS_ON_SEND
      /\ c_and_test (flags (rs485 port')) SER_RS485_ENABLED = true
      /\ c_and_test (flags (rs485 port')) SER_RS485_RTS_ON_SEND = true
      /\ c_and_test (flags (rs485 port')) SER_RS485_RX_DURING_TX = false.
Proof.
  intros hdr H bus port Hen Hrts Hrx.
  assert (Hword : u32 (Z.lor SER_RS485_ENABLED SER_RS485_RTS_ON_SEND)
                  = Z.lor SER_RS485_ENABLED SER_RS485_RTS_ON_SEND).
  { unfold u32. rewrite <- Z.land_ones by lia.
    rewrite Z.land_lor_distr_l, !Z.land_ones by lia.
    rewrite !Z.mod_small by lia. reflexivity. }
  assert (Hl : Z.land (Z.lor SER_RS485_ENABLED SER_RS485_RTS_ON_SEND)
                      SER_RS485_ENABLED = SER_RS485_ENABLED).
  { apply Z.bits_inj'; intros i Hi. rewrite Z.land_spec, Z.lor_spec.
    destruct (Z.testbit SER_RS485_ENABLED i),
             (Z.testbit SER_RS485_RTS_ON_SEND i); reflexivity. }
  assert (Hr : Z.land (Z.lor SER_RS485_ENABLED SER_RS485_RTS_ON_SEND)
                      SER_RS485_RTS_ON_SEND = SER_RS485_RTS_ON_SEND).
  { apply Z.bits_inj'; intros i Hi. rewrite Z.land_spec, Z.lor_spec.
    destruct (Z.testbit SER_RS485_ENABLED i),
             (Z.testbit SER_RS485_RTS_ON_SEND i); reflexivity. }
  eexists. split; [reflexivity |].
  cbn [txvr_ops rs485_config rs485 flags hw]. rewrite Hword.
  unfold c_and_test. rewrite Hl, Hr, Hrx.
  repeat split.
  - destruct (Z.eqb_spec SER_RS485_ENABLED 0); [lia | reflexivity].
  - destruct (Z.eqb_spec SER_RS485_RTS_ON_SEND 0); [lia | reflexivity].
Qed.

(** C10: port setup changes the flag word of the cached configuration and
    the two pointer fields only: the delays and the padding of the cached
    configuration, and the register space, are the ones before the call. *)
Theorem port_setup_keeps_timing_fields :
  forall (hdr : Headers) (H : Type) (bus : Bus H) (port : uart_port H),
    exists port',
      ni16550_port_setup port = Some (tt, port')
      /\ delay_rts_before_send (rs485 port')
         = delay_rts_before_send (rs485 port)
      /\ delay_rts_after_send (rs485 port')
         = delay_rts_after_send (rs485 port)
      /\ padding (rs485 port') = padding (rs485 port)
      /\ hw port' = hw port.
Proof.
  intros hdr H bus port. eexists. split; [reflexivity |].
  repeat split.
Qed.

(** ** Runs on the sample inputs, with the Linux header values *)

Section Samples.
#[local] Existing Instance linux_headers.

Example enable_sample :
  observed ni16550_enable_transceivers
  = Some (0, [RegRead 0x0F 0x4A; RegWrite 0x0F 0x4A], sample_cached).
Proof. reflexivity. Qed.

Example disable_sample :
  observed ni16550_disable_transceivers
  = Some (0, [RegRead 0x0F 0x4A; RegWrite 0x0F 0x42], sample_cached).
Proof. reflexivity. Qed.

Example config_auto_sample :
  observed (ni16550_config_rs485 (Some cfg_auto))
  = Some (0, [RegRead 0x0F 0x4A; RegWrite 0x0F 0x4B], cfg_auto).
Proof. reflexivity. Qed.

Example config_echo_sample :
  observed (ni16550_config_rs485 (Some cfg_echo))
  = Some (0, [RegRead 0x0F 0x4A; RegWrite 0x0F 0x49], cfg_echo).
Proof. reflexivity. Qed.

Example config_disabled_sample :
  observed (ni16550_config_rs485 (Some (mkRs485 0x12 0 0 [])))
  = Some (0, [RegRead 0x0F 0x4A; RegWrite 0x0F 0x48], mkRs485 0x12 0 0 []).
Proof. reflexivity. Qed.

Example config_invalid_sample :
  observed (ni16550_config_rs485 (Some cfg_invalid))
  = Some (-22, [RegRead 0x0F 0x4A], sample_cached).
Proof. reflexivity. Qed.

Example config_null_sample :
  observed (ni16550_config_rs485 None) = None.
Proof. reflexivity. Qed.

Example setup_then_echo_sample :
  observed (ni16550_port_setup ;;; ni16550_config_rs485 (Some cfg_echo))
  = Some (0, [RegRead 0x0F 0x4A; RegWrite 0x0F 0x49], cfg_echo).
Proof. reflexivity. Qed.

Example is_rs232_mode_samples :
  map (fun pmr => option_map fst (is_rs232_mode 0x3F8 (fun _ : Z => pmr)))
      [0x00; 0x10; 0x01; 0x11; 0x02; 0x12; 0x03; 0x13]
  = map Some [false; false; true; true; false; false; true; false].
Proof. reflexivity. Qed.

Example config_prescaler_sample :
  option_map (fun x => accesses (snd x))
    (ni16550_config_prescaler 0x3F8 0x18 (mkRecorded sample_regs []))
  = Some [RegRead 0x3FB 0x4A; RegWrite 0x3FB 0xBF;
          RegRead 0x3FA 0x4A; RegWrite 0x3FA 0x5A;
          RegWrite 0x3FB 0x4A; RegWrite 0x3FF 0x01; RegWrite 0x3FD 0x18].
Proof. reflexivity. Qed.

End Samples.

(** ** The conditional theorems at the sample inputs *)

Lemma config_rs485_wire_mode_witness :
  invalid_two_wire (hdr := linux_headers) cfg_auto = false
  /\ exists w,
       ni16550_config_rs485 (hdr := linux_headers) (Some cfg_auto)
         sample_recorded_port
       = Some (0, mkPort
                    (mkRecorded (regfile_set NI16550_PCR_OFFSET w sample_regs)
                       [RegRead NI16550_PCR_OFFSET 0x4A;
                        RegWrite NI16550_PCR_OFFSET w])
                    None None cfg_auto)
       /\ Z.land w NI16550_PCR_WIRE_MODE_MASK = NI16550_PCR_AUTO_RS485.
Proof.
  split; [reflexivity |].
  destruct (config_rs485_wire_mode linux_headers regfile regfile_bus
              sample_recorded_port cfg_auto eq_refl)
    as (w & Hrun & _ & _ & Hauto & _).
  exists w. split; [exact Hrun | apply Hauto; reflexivity].
Defined.

Lemma config_rs485_frame_witness :
  invalid_two_wire (hdr := linux_headers) cfg_echo = false
  /\ exists w,
       ni16550_config_rs485 (hdr := linux_headers) (Some cfg_echo)
         sample_recorded_port
       = Some (0, mkPort
                    (mkRecorded (regfile_set NI16550_PCR_OFFSET w sample_regs)
                       [RegRead NI16550_PCR_OFFSET 0x4A;
                        RegWrite NI16550_PCR_OFFSET w])
                    None None cfg_echo)
       /\ Z.land w NI16550_PCR_WIRE_MODE_MASK = NI16550_PCR_ECHO_RS485
       /\ Z.land w NI16550_PCR_TXVR_ENABLE_BIT = NI16550_PCR_TXVR_ENABLE_BIT
       /\ Z.land w NI16550_PCR_RS485_TERMINATION_BIT
          = NI16550_PCR_RS485_TERMINATION_BIT.
Proof.
  split; [reflexivity |].
  destruct (config_rs485_frame linux_headers regfile regfile_bus
              sample_recorded_port cfg_echo eq_refl)
    as (w & Hrun & Hfield & _ & Hen & Hterm).
  exists w. split; [exact Hrun |].
  split; [exact Hfield |]. split; [exact Hen | exact Hterm].
Defined.

Lemma config_rs485_rejection_witness :
  EINVAL (Headers := linux_headers) <> 0
  /\ exists port',
       ni16550_config_rs485 (hdr := linux_headers) (Some cfg_invalid)
         sample_recorded_port
       = Some (-22, port')
       /\ accesses (hw port') = [RegRead NI16550_PCR_OFFSET 0x4A]
       /\ filter is_write (accesses (hw port')) = []
       /\ rs485 port' = sample_cached.
Proof.
  assert (Hnz : EINVAL (Headers := linux_headers) <> 0) by discriminate.
  split; [exact Hnz |].
  destruct (config_rs485_rejection linux_headers regfile regfile_bus
              sample_recorded_port cfg_invalid Hnz)
    as (r & port' & Hrun & Hiff & Hrej & _).
  assert (Hall : c_and_test (flags cfg_invalid)
                   (SER_RS485_ENABLED (Headers := linux_headers)) = true
                 /\ c_and_test (flags cfg_invalid)
                      (SER_RS485_RX_DURING_TX (Headers := linux_headers)) = true
                 /\ c_and_test (flags cfg_invalid)
                      (SER_RS485_RTS_ON_SEND (Headers := linux_headers)) = true)
    by (repeat split).
  destruct (Hrej Hall) as (Hlog & Hwrites & _ & Hcache).
  exists port'. split; [| split; [exact Hlog | split; [| exact Hcache]]].
  - rewrite Hrun. f_equal. f_equal. apply Hiff, Hall.
  - rewrite Hwrites. reflexivity.
Defined.

Lemma config_rs485_cache_last_success_witness :
  EINVAL (Headers := linux_headers) <> 0
  /\ exists rets port',
       config_calls (hdr := linux_headers) [cfg_auto; cfg_invalid] sample_port
       = Some (rets, port')
       /\ length rets = 2%nat
       /\ rs485 port'
          = last_success sample_cached
              (combine [cfg_auto; cfg_invalid] rets).
Proof.
  assert (Hnz : EINVAL (Headers := linux_headers) <> 0) by discriminate.
  split; [exact Hnz |].
  exact (proj1 (config_rs485_cache_last_success linux_headers regfile
                  regfile_bus Hnz)
               [cfg_auto; cfg_invalid] sample_port).
Defined.

Lemma port_setup_binds_and_seeds_witness :
  0 < SER_RS485_ENABLED (Headers := linux_headers) < 2 ^ 32
  /\ 0 < SER_RS485_RTS_ON_SEND (Headers := linux_headers) < 2 ^ 32
  /\ Z.land (Z.lor (SER_RS485_ENABLED (Headers := linux_headers))
                   (SER_RS485_RTS_ON_SEND (Headers := linux_headers)))
            (SER_RS485_RX_DURING_TX (Headers := linux_headers)) = 0
  /\ exists port',
       ni16550_port_setup (hdr := linux_headers) sample_port = Some (tt, port')
       /\ txvr_ops port' = Some ni16550_txvr_ops
       /\ rs485_config port' = Some ni16550_config_rs485_addr
       /\ flags (rs485 port') = 0x03.
Proof.
  assert (H1 : 0 < SER_RS485_ENABLED (Headers := linux_headers) < 2 ^ 32)
    by (split; reflexivity).
  assert (H2 : 0 < SER_RS485_RTS_ON_SEND (Headers := linux_headers) < 2 ^ 32)
    by (split; reflexivity).
  assert (H3 : Z.land (Z.lor (SER_RS485_ENABLED (Headers := linux_headers))
                         (SER_RS485_RTS_ON_SEND (Headers := linux_headers)))
                  (SER_RS485_RX_DURING_TX (Headers := linux_headers)) = 0)
    by reflexivity.
  split; [exact H1 |]. split; [exact H2 |]. split; [exact H3 |].
  destruct (port_setup_binds_and_seeds linux_headers regfile regfile_bus
              sample_port H1 H2 H3)
    as (port' & Hrun & Hops & _ & _ & Hcfg & _ & Hflags & _).
  exists port'. split; [exact Hrun |]. split; [exact Hops |].
  split; [exact Hcfg | exact Hflags].
Defined.

(** * Further properties of the driver *)

(** ** The port operations on registers that behave like memory *)

Lemma enable_regfile (port : uart_port regfile) :
  ni16550_enable_transceivers port =
  Some (0, mkPort
             (regfile_set NI16550_PCR_OFFSET
                (Z.lor (u8 (hw port NI16550_PCR_OFFSET))
                       NI16550_PCR_TXVR_ENABLE_BIT) (hw port))
             (txvr_ops port) (rs485_config port) (rs485 port)).
Proof. rewrite enable_transceivers_run. reflexivity. Qed.

Lemma disable_regfile (port : uart_port regfile) :
  ni16550_disable_transceivers port =
  Some (0, mkPort
             (regfile_set NI16550_PCR_OFFSET
                (Z.land (u8 (hw port NI16550_PCR_OFFSET))
                        (Z.lnot NI16550_PCR_TXVR_ENABLE_BIT)) (hw port))
             (txvr_ops port) (rs485_config port) (rs485 port)).
Proof. rewrite disable_transceivers_run. reflexivity. Qed.

Lemma config_regfile {hdr : Headers} (cfg : serial_rs485)
  (port : uart_port regfile) :
  ni16550_config_rs485 (Some cfg) port =
  if invalid_two_wire cfg then
    Some (- EINVAL,
          mkPort (hw port) (txvr_ops port) (rs485_config port) (rs485 port))
  else
    Some (0, mkPort
               (regfile_set NI16550_PCR_OFFSET
                  (pcr_with_mode (u8 (hw port NI16550_PCR_OFFSET)) cfg)
                  (hw port))
               (txvr_ops port) (rs485_config port) cfg).
Proof. rewrite config_rs485_run. reflexivity. Qed.

Lemma wire_mode_high {hdr : Headers} (cfg : serial_rs485) (i : Z) :
  2 <= i -> Z.testbit (wire_mode cfg) i = false.
Proof.
  intros Hi. rewrite <- wire_mode_in_mask, Z.land_spec.
  rewrite testbit_wire_mode_mask by lia.
  destruct (Z.ltb_spec i 2); [lia | apply andb_false_r].
Qed.

(** Turns an equation between PCR bytes into its instance at bit [i] and
    splits on where [i] lies. *)
Ltac pcr_bits :=
  let i := fresh "i" in
  let Hi := fresh "Hi" in
  unfold pcr_with_mode;
  apply Z.bits_inj'; intros i Hi; bit_formula;
  rewrite ?testbit_enable_bit, ?testbit_wire_mode_mask by lia;
  destruct (Z.ltb_spec i 2);
    [| rewrite ?wire_mode_high by lia];
  index_cases;
  repeat match goal with
         | |- context [Z.testbit ?x i] => destruct (Z.testbit x i)
         end;
  reflexivity.

(** Runs the port operations of a goal on memory-like registers. *)
Ltac run_on_regfile :=
  unfold bind;
  repeat (first [ rewrite enable_regfile
                | rewrite disable_regfile
                | rewrite config_regfile ];
          cbn [hw txvr_ops rs485_config rs485]).

(** Reduces [same_port] between two explicit ports to the agreement of
    their registers. *)
Ltac port_fields :=
  unfold same_port; cbn [hw txvr_ops rs485_config rs485];
  split; [| repeat split].

(** X1: whichever of enable and disable is called last decides: enable then
    disable leaves the port as disable alone does, and disable then enable
    leaves it as enable alone does. *)
Theorem transceivers_last_call_wins :
  forall (port : uart_port regfile),
    same_state (ni16550_enable_transceivers ;;; ni16550_disable_transceivers)
               ni16550_disable_transceivers port
    /\ same_state (ni16550_disable_transceivers ;;; ni16550_enable_transceivers)
                  ni16550_enable_transceivers port.
Proof.
  intros port. unfold same_state. split; run_on_regfile.
  - rewrite regfile_set_same. port_fields.
    intros a. rewrite regfile_set_twice. f_equal. pcr_bits.
  - rewrite regfile_set_same. port_fields.
    intros a. rewrite regfile_set_twice. f_equal. pcr_bits.
Qed.

(** X2: the transceiver calls and the wire-mode configuration do not
    interfere: for every configuration, accepted or refused, enable (or
    disable) before the configuration call leaves the port as enable (or
    disable) after it does. *)
Theorem config_rs485_commutes_with_transceivers :
  forall (hdr : Headers) (cfg : serial_rs485) (port : uart_port regfile),
    same_state
      (ni16550_enable_transceivers ;;; ni16550_config_rs485 (Some cfg))
      (ni16550_config_rs485 (Some cfg) ;;; ni16550_enable_transceivers) port
    /\ same_state
         (ni16550_disable_transceivers ;;; ni16550_config_rs485 (Some cfg))
         (ni16550_config_rs485 (Some cfg) ;;; ni16550_disable_transceivers)
         port.
Proof.
  intros hdr cfg port. unfold same_state.
  split; run_on_regfile; destruct (invalid_two_wire cfg); run_on_regfile;
    port_fields; intros a; rewrite ?regfile_set_same, ?regfile_set_twice;
    try reflexivity; f_equal; pcr_bits.
Qed.

(** X3: an accepted configuration overrides whatever was configured before:
    after any configuration call, accepted or refused, a call with an
    accepted configuration leaves the port as that call alone does; in
    particular repeating an accepted call changes nothing. *)
Theorem config_rs485_last_accepted_wins :
  forall (hdr : Headers) (cfg1 cfg2 : serial_rs485) (port : uart_port regfile),
    invalid_two_wire cfg2 = false ->
    same_state
      (ni16550_config_rs485 (Some cfg1) ;;; ni16550_config_rs485 (Some cfg2))
      (ni16550_config_rs485 (Some cfg2)) port.
Proof.
  intros hdr cfg1 cfg2 port Hok. unfold same_state. run_on_regfile.
  destruct (invalid_two_wire cfg1); run_on_regfile; rewrite Hok;
    port_fields; intros a; rewrite ?regfile_set_same, ?regfile_set_twice;
    try reflexivity; f_equal; pcr_bits.
Qed.

Lemma config_rs485_last_accepted_wins_witness :
  invalid_two_wire (hdr := linux_headers) cfg_echo = false
  /\ same_state
       (ni16550_config_rs485 (hdr := linux_headers) (Some cfg_invalid) ;;;
        ni16550_config_rs485 (hdr := linux_headers) (Some cfg_echo))
       (ni16550_config_rs485 (hdr := linux_headers) (Some cfg_echo))
       sample_port.
Proof.
  split; [reflexivity |].
  apply (config_rs485_last_accepted_wins linux_headers cfg_invalid cfg_echo
           sample_port eq_refl).
Defined.

(** ** Sequences of calls made through the stored pointers *)

Lemma enable_byte (v : Z) :
  0 <= Z.lor (u8 v) NI16550_PCR_TXVR_ENABLE_BIT < 256.
Proof. rewrite <- u8_lor by reflexivity. apply u8_range. Qed.

Lemma disable_byte (v : Z) :
  0 <= Z.land (u8 v) (Z.lnot NI16550_PCR_TXVR_ENABLE_BIT) < 256.
Proof. rewrite <- u8_land. apply u8_range. Qed.

Lemma pcr_with_mode_byte {hdr : Headers} (v : Z) (cfg : serial_rs485) :
  0 <= pcr_with_mode (u8 v) cfg < 256.
Proof.
  replace (pcr_with_mode (u8 v) cfg) with (u8 (pcr_with_mode (u8 v) cfg));
    [apply u8_range | pcr_bits].
Qed.

Section Sequences.
Context {hdr : Headers}.

(** One call on memory-like registers: it returns, touches no register but
    the PCR and neither pointer field, keeps the cache coherent with the PCR
    and makes it so when it is an accepted configuration. *)
Lemma run_op_regfile (o : port_op) (port : uart_port regfile) :
  exists r port',
    run_op o port = Some (r, port')
    /\ (forall a, a <> NI16550_PCR_OFFSET -> hw port' a = hw port a)
    /\ txvr_ops port' = txvr_ops port
    /\ rs485_config port' = rs485_config port
    /\ (coherent port -> coherent port')
    /\ (forall cfg, o = OpConfig cfg -> invalid_two_wire cfg = false ->
        coherent port').
Proof.
  assert (Hother : forall w a, a <> NI16550_PCR_OFFSET ->
            regfile_set NI16550_PCR_OFFSET w (hw port) a = hw port a).
  { intros w a Ha. unfold regfile_set.
    destruct (Z.eqb_spec a NI16550_PCR_OFFSET); [contradiction | reflexivity]. }
  destruct o as [| | cfg];
    cbn [run_op call_txvr call_rs485_config enable_transceivers
         disable_transceivers ni16550_txvr_ops].
  - rewrite enable_regfile. eexists _, _. split; [reflexivity |].
    unfold coherent. cbn [hw txvr_ops rs485_config rs485].
    rewrite regfile_set_same.
    repeat split; auto; try discriminate.
    intros <-. pcr_bits.
  - rewrite disable_regfile. eexists _, _. split; [reflexivity |].
    unfold coherent. cbn [hw txvr_ops rs485_config rs485].
    rewrite regfile_set_same.
    repeat split; auto; try discriminate.
    intros <-. pcr_bits.
  - rewrite config_regfile. destruct (invalid_two_wire cfg) eqn:E.
    + eexists _, _. split; [reflexivity |].
      unfold coherent. cbn [hw txvr_ops rs485_config rs485].
      repeat split; auto.
      intros cfg' Hcfg. injection Hcfg as <-. congruence.
    + eexists _, _. split; [reflexivity |].
      unfold coherent. cbn [hw txvr_ops rs485_config rs485].
      rewrite regfile_set_same, pcr_with_mode_field.
      repeat split; auto.
Qed.

Lemma run_ops_cons {H : Type} {bus : Bus H} (o : port_op)
  (rest : list port_op) (port port1 : uart_port H) (r : Z) :
  run_op o port = Some (r, port1) ->
  run_ops (o :: rest) port = run_ops rest port1.
Proof. intros Hrun. cbn [run_ops]. unfold bind. rewrite Hrun. reflexivity. Qed.

End Sequences.

(** X4: the cache stays coherent with the hardware: over any sequence of
    enable, disable and configuration calls, if the wire-mode field of the
    PCR encodes the cached configuration before the sequence, or the
    sequence contains an accepted configuration, then the calls all return
    and the wire-mode field encodes the cached configuration afterwards. *)
Theorem wire_mode_cache_coherent :
  forall (hdr : Headers) (ops : list port_op) (port : uart_port regfile),
    coherent port
    \/ (exists cfg, In (OpConfig cfg) ops /\ invalid_two_wire cfg = false) ->
    exists port',
      run_ops ops port = Some (tt, port') /\ coherent port'.
Proof.
  intros hdr ops. induction ops as [| o rest IH]; intros port Hstart.
  - exists port. split; [reflexivity |].
    destruct Hstart as [Hc | (cfg & [] & _)]. exact Hc.
  - destruct (run_op_regfile o port)
      as (r & port1 & Hrun & _ & _ & _ & Hkeep & Hmake).
    rewrite (run_ops_cons o rest port port1 r Hrun). apply IH.
    destruct Hstart as [Hc | (cfg & [Hhead | Htail] & Hok)].
    + left. apply Hkeep, Hc.
    + left. apply (Hmake cfg); [exact Hhead | exact Hok].
    + right. exists cfg. split; assumption.
Qed.

Lemma wire_mode_cache_coherent_witness :
  (coherent (hdr := linux_headers) sample_port
   \/ (exists cfg,
         In (OpConfig cfg) [OpEnable; OpConfig cfg_auto; OpDisable]
         /\ invalid_two_wire (hdr := linux_headers) cfg = false))
  /\ exists port',
       run_ops (hdr := linux_headers) [OpEnable; OpConfig cfg_auto; OpDisable]
         sample_port = Some (tt, port')
       /\ coherent (hdr := linux_headers) port'.
Proof.
  assert (Hstart :
            coherent (hdr := linux_headers) sample_port
            \/ (exists cfg,
                  In (OpConfig cfg) [OpEnable; OpConfig cfg_auto; OpDisable]
                  /\ invalid_two_wire (hdr := linux_headers) cfg = false)).
  { right. exists cfg_auto. split; [right; left; reflexivity | reflexivity]. }
  split; [exact Hstart |].
  exact (wire_mode_cache_coherent linux_headers _ sample_port Hstart).
Defined.

(** X5: over any sequence of enable, disable and configuration calls every
    register other than the PCR holds what it held before, and the two
    pointer fields of the port are unchanged. *)
Theorem port_calls_touch_only_pcr :
  forall (hdr : Headers) (ops : list port_op) (port : uart_port regfile)
         (a : Z),
    a <> NI16550_PCR_OFFSET ->
    exists port',
      run_ops ops port = Some (tt, port')
      /\ hw port' a = hw port a
      /\ txvr_ops port' = txvr_ops port
      /\ rs485_config port' = rs485_config port.
Proof.
  intros hdr ops. induction ops as [| o rest IH]; intros port a Ha.
  - exists port. repeat split.
  - destruct (run_op_regfile o port)
      as (r & port1 & Hrun & Hregs & Hops & Hcfg & _).
    rewrite (run_ops_cons o rest port port1 r Hrun).
    destruct (IH port1 a Ha) as (port' & Hrest & Hregs' & Hops' & Hcfg').
    exists port'. split; [exact Hrest |].
    rewrite Hregs', Hops', Hcfg'. repeat split; auto.
Qed.

Lemma port_calls_touch_only_pcr_witness :
  NI16550_PMR_OFFSET <> NI16550_PCR_OFFSET
  /\ exists port',
       run_ops (hdr := linux_headers)
         [OpConfig cfg_echo; OpDisable; OpConfig cfg_invalid; OpEnable]
         sample_port = Some (tt, port')
       /\ hw port' NI16550_PMR_OFFSET = hw sample_port NI16550_PMR_OFFSET
       /\ txvr_ops port' = txvr_ops sample_port
       /\ rs485_config port' = rs485_config sample_port.
Proof.
  assert (Ha : NI16550_PMR_OFFSET <> NI16550_PCR_OFFSET) by discriminate.
  split; [exact Ha |].
  exact (port_calls_touch_only_pcr linux_headers _ sample_port _ Ha).
Defined.

(** ** What the port operations put on the bus *)

Section BusFootprint.
Context {hdr : Headers}.
Context {H : Type} {bus : Bus H}.

Lemma run_op_recorded (o : port_op) (port : uart_port (recorded H)) :
  exists r port' new,
    run_op o port = Some (r, port')
    /\ accesses (hw port') = accesses (hw port) ++ new
    /\ Forall pcr_byte_access new.
Proof.
  destruct o as [| | cfg];
    cbn [run_op call_txvr call_rs485_config enable_transceivers
         disable_transceivers ni16550_txvr_ops].
  - rewrite enable_transceivers_run, recorded_read, recorded_write.
    cbn [fst snd inner accesses]. rewrite <- app_assoc.
    eexists _, _, _. split; [reflexivity |]. cbn [hw accesses].
    split; [reflexivity |].
    repeat constructor; apply enable_byte.
  - rewrite disable_transceivers_run, recorded_read, recorded_write.
    cbn [fst snd inner accesses]. rewrite <- app_assoc.
    eexists _, _, _. split; [reflexivity |]. cbn [hw accesses].
    split; [reflexivity |].
    repeat constructor; apply disable_byte.
  - rewrite config_rs485_run. cbv zeta.
    destruct (invalid_two_wire cfg).
    + rewrite recorded_read. cbn [fst snd inner accesses].
      eexists _, _, _. split; [reflexivity |]. cbn [hw accesses].
      split; [reflexivity |]. repeat constructor.
    + rewrite recorded_read, recorded_write.
      cbn [fst snd inner accesses]. rewrite <- app_assoc.
      eexists _, _, _. split; [reflexivity |]. cbn [hw accesses].
      split; [reflexivity |].
      repeat constructor; apply pcr_with_mode_byte.
Qed.

End BusFootprint.

(** X6: on every register space, any sequence of enable, disable and
    configuration calls returns, only appends to the record of accesses, and
    every access it appends is to the PCR, each write carrying a value
    between 0 and 255. *)
Theorem port_calls_access_pcr_bytes :
  forall (hdr : Headers) (H : Type) (bus : Bus H)
         (ops : list port_op) (port : uart_port (recorded H)),
    exists port' new,
      run_ops ops port = Some (tt, port')
      /\ accesses (hw port') = accesses (hw port) ++ new
      /\ Forall pcr_byte_access new.
Proof.
  intros hdr H bus ops. induction ops as [| o rest IH]; intros port.
  - exists port, []. split; [reflexivity |].
    split; [symmetry; apply app_nil_r | constructor].
  - destruct (run_op_recorded o port) as (r & port1 & new1 & Hrun & Hlog & Hok).
    destruct (IH port1) as (port' & new & Hrest & Hlog' & Hok').
    exists port', (new1 ++ new).
    split; [rewrite (run_ops_cons o rest port port1 r Hrun); exact Hrest |].
    split; [rewrite Hlog', Hlog, app_assoc; reflexivity |].
    apply Forall_app. split; assumption.
Qed.

(** ** Reading the configuration back from the PCR *)

(** X7: the wire-mode field identifies the mode that was configured: when
    two accepted configurations leave the same wire-mode field in the PCR,
    they agree on the enabled flag and, when enabled, on the
    receive-during-transmit and RTS-on-send flags. *)
Theorem wire_mode_field_identifies_mode :
  forall (hdr : Headers) (cfg1 cfg2 : serial_rs485)
         (port1 port2 : uart_port regfile) (w1 w2 : Z),
    invalid_two_wire cfg1 = false ->
    invalid_two_wire cfg2 = false ->
    reg_after (ni16550_config_rs485 (Some cfg1)) port1 NI16550_PCR_OFFSET
      = Some w1 ->
    reg_after (ni16550_config_rs485 (Some cfg2)) port2 NI16550_PCR_OFFSET
      = Some w2 ->
    Z.land w1 NI16550_PCR_WIRE_MODE_MASK
      = Z.land w2 NI16550_PCR_WIRE_MODE_MASK ->
    c_and_test (flags cfg1) SER_RS485_ENABLED
      = c_and_test (flags cfg2) SER_RS485_ENABLED
    /\ (c_and_test (flags cfg1) SER_RS485_ENABLED = true ->
        c_and_test (flags cfg1) SER_RS485_RX_DURING_TX
          = c_and_test (flags cfg2) SER_RS485_RX_DURING_TX
        /\ c_and_test (flags cfg1) SER_RS485_RTS_ON_SEND
           = c_and_test (flags cfg2) SER_RS485_RTS_ON_SEND).
Proof.
  intros hdr cfg1 cfg2 port1 port2 w1 w2 Hok1 Hok2 Hw1 Hw2 Hfield.
  unfold reg_after in Hw1, Hw2.
  rewrite config_regfile, Hok1 in Hw1. rewrite config_regfile, Hok2 in Hw2.
  cbn [hw] in Hw1, Hw2. rewrite regfile_set_same in Hw1, Hw2.
  injection Hw1 as <-. injection Hw2 as <-.
  rewrite !pcr_with_mode_field in Hfield.
  unfold invalid_two_wire in Hok1, Hok2. unfold wire_mode in Hfield.
  destruct (c_and_test (flags cfg1) SER_RS485_ENABLED),
           (c_and_test (flags cfg1) SER_RS485_RX_DURING_TX),
           (c_and_test (flags cfg1) SER_RS485_RTS_ON_SEND),
           (c_and_test (flags cfg2) SER_RS485_ENABLED),
           (c_and_test (flags cfg2) SER_RS485_RX_DURING_TX),
           (c_and_test (flags cfg2) SER_RS485_RTS_ON_SEND);
    cbn in Hok1, Hok2, Hfield; try discriminate;
    (split; [reflexivity | intros; try discriminate; split; reflexivity]).
Qed.

Lemma wire_mode_field_identifies_mode_witness :
  invalid_two_wire (hdr := linux_headers) cfg_auto = false
  /\ invalid_two_wire (hdr := linux_headers) (mkRs485 0x07 5 6 []) = false
  /\ reg_after (ni16550_config_rs485 (hdr := linux_headers) (Some cfg_auto))
       sample_port NI16550_PCR_OFFSET = Some 0x4B
  /\ reg_after
       (ni16550_config_rs485 (hdr := linux_headers)
          (Some (mkRs485 0x07 5 6 [])))
       sample_port NI16550_PCR_OFFSET = Some 0x4B
  /\ c_and_test (flags cfg_auto)
       (SER_RS485_RTS_ON_SEND (Headers := linux_headers))
     = c_and_test 0x07 (SER_RS485_RTS_ON_SEND (Headers := linux_headers)).
Proof.
  repeat (split; [reflexivity |]).
  apply (wire_mode_field_identifies_mode linux_headers cfg_auto
           (mkRs485 0x07 5 6 []) sample_port sample_port 0x4B 0x4B
           eq_refl eq_refl eq_refl eq_refl eq_refl).
  reflexivity.
Defined.

(** ** Capability detection on the bus *)

(** X8: on every register space the capability query returns after exactly
    one access, the read of the register at [iobase + NI16550_PMR_OFFSET];
    it writes nothing. *)
Theorem is_rs232_mode_one_read :
  forall (hdr : Headers) (H : Type) (bus : Bus H)
         (iobase : Z) (r : recorded H),
    let addr := ulong (iobase + NI16550_PMR_OFFSET) in
    exists b,
      is_rs232_mode iobase r =
      Some (b, mkRecorded (snd (bus_read addr (inner r)))
                 (accesses r
                    ++ [RegRead addr (fst (bus_read addr (inner r)))])).
Proof.
  intros hdr H bus iobase r addr.
  unfold is_rs232_mode, bind, inb, ret. fold addr.
  rewrite recorded_read.
  repeat match goal with
         | |- context [if ?c then _ else _] => destruct c
         end;
    eexists; reflexivity.
Qed.

(** X9: on registers that behave like memory the capability query changes
    no register, and its answer depends on the capability register alone:
    two register files that agree at [iobase + NI16550_PMR_OFFSET] get the
    same answer. *)
Theorem is_rs232_mode_depends_on_pmr_only :
  forall (hdr : Headers) (iobase : Z) (r1 r2 : regfile),
    r1 (ulong (iobase + NI16550_PMR_OFFSET))
      = r2 (ulong (iobase + NI16550_PMR_OFFSET)) ->
    exists b,
      is_rs232_mode iobase r1 = Some (b, r1)
      /\ is_rs232_mode iobase r2 = Some (b, r2).
Proof.
  intros hdr iobase r1 r2 Hsame.
  unfold is_rs232_mode, bind, inb, ret.
  cbn [bus_read regfile_bus]. rewrite <- Hsame.
  repeat match goal with
         | |- context [if ?c then _ else _] => destruct c
         end;
    eexists; split; reflexivity.
Qed.

Lemma is_rs232_mode_depends_on_pmr_only_witness :
  sample_regs (@ulong linux_headers (0x3F8 + NI16550_PMR_OFFSET))
    = regfile_set 0x3FB 0xBF sample_regs
        (@ulong linux_headers (0x3F8 + NI16550_PMR_OFFSET))
  /\ exists b,
       is_rs232_mode (hdr := linux_headers) 0x3F8 sample_regs
         = Some (b, sample_regs)
       /\ is_rs232_mode (hdr := linux_headers) 0x3F8
            (regfile_set 0x3FB 0xBF sample_regs)
          = Some (b, regfile_set 0x3FB 0xBF sample_regs).
Proof.
  split; [reflexivity |].
  exact (is_rs232_mode_depends_on_pmr_only linux_headers 0x3F8 sample_regs
           (regfile_set 0x3FB 0xBF sample_regs) eq_refl).
Defined.

(** ** The prescaler sequence on registers that behave like memory *)

Lemma nodup4 (a b c d : Z) :
  NoDup [a; b; c; d] ->
  a <> b /\ a <> c /\ a <> d /\ b <> c /\ b <> d /\ c <> d.
Proof.
  intros Hnd. rewrite !NoDup_cons_iff in Hnd. cbn [In] in Hnd.
  intuition congruence.
Qed.

Section Prescaler.
Context {hdr : Headers}.
Variable iobase : Z.

Let lcr := ulong (iobase + UART_LCR).
Let efr := ulong (iobase + UART_EFR).
Let scr := ulong (iobase + UART_SCR).
Let icr := ulong (iobase + UART_ICR).

(** Every register after the call, when the four addresses differ. *)
Lemma config_prescaler_regfile (prescaler : Z) (r : regfile) :
  NoDup [lcr; efr; scr; icr] ->
  exists r',
    ni16550_config_prescaler iobase prescaler r = Some (tt, r')
    /\ forall a,
         r' a =
         if a =? icr then u8 prescaler
         else if a =? scr then u8 UART_CPR
         else if a =? lcr then u8 (r lcr)
         else if a =? efr then u8 (Z.lor (u8 (r efr)) UART_EFR_ECB)
         else r a.
Proof.
  intros Hnd. apply nodup4 in Hnd.
  destruct Hnd as (Hle & Hls & Hli & Hes & Hei & Hsi).
  unfold ni16550_config_prescaler, bind, inb, outb.
  fold lcr efr scr icr. cbn [bus_read bus_write regfile_bus].
  eexists. split; [reflexivity |].
  intros a. unfold regfile_set. rewrite !u8_idem.
  destruct (Z.eqb_spec efr lcr) as [E | _]; [congruence |].
  repeat match goal with
         | |- context [a =? ?x] => destruct (Z.eqb_spec a x)
         end;
    try reflexivity; congruence.
Qed.

End Prescaler.

(** X10: when the four register addresses differ, the prescaler sequence
    returns with LCR holding the byte it held before, EFR holding the byte
    it held ORed with the enhanced-mode bit, SCR holding the prescaler
    selector, ICR holding the prescaler byte, and every other register
    untouched. *)
Theorem config_prescaler_final_registers :
  forall (hdr : Headers) (iobase prescaler : Z) (r : regfile),
    let lcr := ulong (iobase + UART_LCR) in
    let efr := ulong (iobase + UART_EFR) in
    let scr := ulong (iobase + UART_SCR) in
    let icr := ulong (iobase + UART_ICR) in
    NoDup [lcr; efr; scr; icr] ->
    exists r',
      ni16550_config_prescaler iobase prescaler r = Some (tt, r')
      /\ r' lcr = u8 (r lcr)
      /\ r' efr = u8 (Z.lor (u8 (r efr)) UART_EFR_ECB)
      /\ r' scr = u8 UART_CPR
      /\ r' icr = u8 prescaler
      /\ (forall a, ~ In a [lcr; efr; scr; icr] -> r' a = r a).
Proof.
  intros hdr iobase prescaler r lcr efr scr icr Hnd.
  destruct (config_prescaler_regfile iobase prescaler r Hnd)
    as (r' & Hrun & Hregs).
  apply nodup4 in Hnd.
  destruct Hnd as (Hle & Hls & Hli & Hes & Hei & Hsi).
  fold lcr efr scr icr in Hregs.
  exists r'. split; [exact Hrun |].
  repeat split; try (intros a Ha; cbn [In] in Ha); rewrite Hregs;
    repeat match goal with
           | |- context [?x =? ?y] => destruct (Z.eqb_spec x y)
           end;
    try reflexivity; try congruence; exfalso; intuition congruence.
Qed.

Lemma config_prescaler_final_registers_witness :
  NoDup [0x3FB; 0x3FA; 0x3FF; 0x3FD]
  /\ exists r',
       ni16550_config_prescaler (hdr := linux_headers) 0x3F8 0x18 sample_regs
         = Some (tt, r')
       /\ r' 0x3FB = 0x4A
       /\ r' 0x3FA = 0x5A
       /\ r' 0x3FF = 0x01
       /\ r' 0x3FD = 0x18.
Proof.
  assert (Hnd : NoDup [0x3FB; 0x3FA; 0x3FF; 0x3FD]).
  { repeat constructor; cbn [In]; intuition discriminate. }
  split; [exact Hnd |].
  destruct (config_prescaler_final_registers linux_headers 0x3F8 0x18
              sample_regs Hnd)
    as (r' & Hrun & Hl & He & Hs & Hi & _).
  exists r'. split; [exact Hrun |].
  split; [exact Hl |]. split; [exact He |]. split; [exact Hs | exact Hi].
Defined.

(** X11: when the four register addresses differ, running the prescaler
    sequence again overrides the earlier run: after a run with any prescaler
    value, a second run leaves every register as that second run alone does,
    so repeating the sequence with the same value changes nothing. *)
Theorem config_prescaler_last_run_wins :
  forall (hdr : Headers) (iobase p1 p2 : Z) (r : regfile),
    NoDup [ulong (iobase + UART_LCR); ulong (iobase + UART_EFR);
           ulong (iobase + UART_SCR); ulong (iobase + UART_ICR)] ->
    same_regs
      (ni16550_config_prescaler iobase p1 ;;;
       ni16550_config_prescaler iobase p2)
      (ni16550_config_prescaler iobase p2) r.
Proof.
  intros hdr iobase p1 p2 r Hnd.
  destruct (config_prescaler_regfile iobase p1 r Hnd) as (r1 & Hrun1 & Hregs1).
  destruct (config_prescaler_regfile iobase p2 r1 Hnd)
    as (r12 & Hrun12 & Hregs12).
  destruct (config_prescaler_regfile iobase p2 r Hnd) as (r2 & Hrun2 & Hregs2).
  apply nodup4 in Hnd.
  destruct Hnd as (Hle & Hls & Hli & Hes & Hei & Hsi).
  unfold same_regs, bind. rewrite Hrun1, Hrun12, Hrun2.
  intros a. rewrite Hregs12, Hregs2, !Hregs1.
  assert (Hefr : forall e,
             u8 (Z.lor (u8 (Z.lor (u8 e) UART_EFR_ECB)) UART_EFR_ECB)
             = u8 (Z.lor (u8 e) UART_EFR_ECB)).
  { intros e. apply Z.bits_inj'; intros i Hi. bit_formula.
    destruct (i <? 8), (Z.testbit e i), (Z.testbit UART_EFR_ECB i);
      reflexivity. }
  repeat match goal with
         | |- context [?x =? ?y] => destruct (Z.eqb_spec x y)
         end;
    rewrite ?u8_idem, ?Hefr; try reflexivity; congruence.
Qed.

Lemma config_prescaler_last_run_wins_witness :
  NoDup [@ulong linux_headers (0x3F8 + 3); @ulong linux_headers (0x3F8 + 2);
         @ulong linux_headers (0x3F8 + 7); @ulong linux_headers (0x3F8 + 5)]
  /\ same_regs
       (ni16550_config_prescaler (hdr := linux_headers) 0x3F8 0x10 ;;;
        ni16550_config_prescaler (hdr := linux_headers) 0x3F8 0x18)
       (ni16550_config_prescaler (hdr := linux_headers) 0x3F8 0x18)
       sample_regs.
Proof.
  assert (Hnd : NoDup [@ulong linux_headers (0x3F8 + 3);
                       @ulong linux_headers (0x3F8 + 2);
                       @ulong linux_headers (0x3F8 + 7);
                       @ulong linux_headers (0x3F8 + 5)]).
  { repeat constructor; cbn [In]; intuition discriminate. }
  split; [exact Hnd |].
  exact (config_prescaler_last_run_wins linux_headers 0x3F8 0x10 0x18
           sample_regs Hnd).
Defined.

(** ** The seeded default against the hardware *)

Lemma default_flags_decode {hdr : Headers} :
  0 < SER_RS485_ENABLED < 2 ^ 32 ->
  0 < SER_RS485_RTS_ON_SEND < 2 ^ 32 ->
  Z.land (Z.lor SER_RS485_ENABLED SER_RS485_RTS_ON_SEND)
         SER_RS485_RX_DURING_TX = 0 ->
  let word := u32 (Z.lor SER_RS485_ENABLED SER_RS485_RTS_ON_SEND) in
  c_and_test word SER_RS485_ENABLED = true
  /\ c_and_test word SER_RS485_RTS_ON_SEND = true
  /\ c_and_test word SER_RS485_RX_DURING_TX = false.
Proof.
  intros Hen Hrts Hrx word.
  assert (Hword : word = Z.lor SER_RS485_ENABLED SER_RS485_RTS_ON_SEND).
  { unfold word, u32. rewrite <- Z.land_ones by lia.
    rewrite Z.land_lor_distr_l, !Z.land_ones by lia.
    rewrite !Z.mod_small by lia. reflexivity. }
  assert (Hl : forall x y, Z.land (Z.lor x y) x = x).
  { intros x y. apply Z.bits_inj'; intros i Hi.
    rewrite Z.land_spec, Z.lor_spec.
    destruct (Z.testbit x i), (Z.testbit y i); reflexivity. }
  unfold c_and_test. rewrite Hword, Hrx, Hl.
  rewrite (Z.lor_comm SER_RS485_ENABLED), Hl.
  repeat split.
  - destruct (Z.eqb_spec SER_RS485_ENABLED 0); [lia | reflexivity].
  - destruct (Z.eqb_spec SER_RS485_RTS_ON_SEND 0); [lia | reflexivity].
Qed.

(** X12: the default that port setup caches is the 2-wire auto mode: when
    the enabled and RTS-on-send constants are non-zero 32-bit values sharing
    no bit with receive-during-transmit, setup accesses no register, the
    configuration call accepts the seeded configuration and writes the auto
    encoding to the wire-mode field; so after setup the cache is coherent
    with the PCR exactly when the hardware is in auto mode. *)
Theorem port_setup_default_is_auto :
  forall (hdr : Headers) (port : uart_port regfile),
    0 < SER_RS485_ENABLED < 2 ^ 32 ->
    0 < SER_RS485_RTS_ON_SEND < 2 ^ 32 ->
    Z.land (Z.lor SER_RS485_ENABLED SER_RS485_RTS_ON_SEND)
           SER_RS485_RX_DURING_TX = 0 ->
    exists port' port'',
      ni16550_port_setup port = Some (tt, port')
      /\ hw port' = hw port
      /\ (coherent port' <->
          Z.land (hw port NI16550_PCR_OFFSET) NI16550_PCR_WIRE_MODE_MASK
          = NI16550_PCR_AUTO_RS485)
      /\ ni16550_config_rs485 (Some (rs485 port')) port' = Some (0, port'')
      /\ Z.land (hw port'' NI16550_PCR_OFFSET) NI16550_PCR_WIRE_MODE_MASK
         = NI16550_PCR_AUTO_RS485
      /\ rs485 port'' = rs485 port'.
Proof.
  intros hdr port Hen Hrts Hrx.
  destruct (default_flags_decode Hen Hrts Hrx) as (Fen & Frts & Frx).
  cbv zeta in Fen, Frts, Frx.
  assert (Hmode : forall d1 d2 pad,
             wire_mode
               (mkRs485 (u32 (Z.lor SER_RS485_ENABLED SER_RS485_RTS_ON_SEND))
                        d1 d2 pad) = NI16550_PCR_AUTO_RS485).
  { intros. unfold wire_mode. cbn [flags]. rewrite Fen, Frx, Frts.
    reflexivity. }
  assert (Hok : forall d1 d2 pad,
             invalid_two_wire
               (mkRs485 (u32 (Z.lor SER_RS485_ENABLED SER_RS485_RTS_ON_SEND))
                        d1 d2 pad) = false).
  { intros. unfold invalid_two_wire. cbn [flags]. rewrite Fen, Frx.
    reflexivity. }
  eexists _, _. split; [reflexivity |].
  cbn [hw rs485 txvr_ops rs485_config].
  split; [reflexivity |]. split; [| split; [| split]].
  - unfold coherent. cbn [hw rs485]. rewrite Hmode. reflexivity.
  - rewrite config_regfile, Hok. reflexivity.
  - cbn [hw]. rewrite regfile_set_same, pcr_with_mode_field. apply Hmode.
  - reflexivity.
Qed.

Lemma port_setup_default_is_auto_witness :
  0 < SER_RS485_ENABLED (Headers := linux_headers) < 2 ^ 32
  /\ 0 < SER_RS485_RTS_ON_SEND (Headers := linux_headers) < 2 ^ 32
  /\ Z.land (Z.lor (SER_RS485_ENABLED (Headers := linux_headers))
                   (SER_RS485_RTS_ON_SEND (Headers := linux_headers)))
            (SER_RS485_RX_DURING_TX (Headers := linux_headers)) = 0
  /\ exists port' port'',
       ni16550_port_setup (hdr := linux_headers) sample_port = Some (tt, port')
       /\ ni16550_config_rs485 (hdr := linux_headers) (Some (rs485 port')) port'
          = Some (0, port'')
       /\ Z.land (hw port'' NI16550_PCR_OFFSET) NI16550_PCR_WIRE_MODE_MASK
          = NI16550_PCR_AUTO_RS485.
Proof.
  assert (H1 : 0 < SER_RS485_ENABLED (Headers := linux_headers) < 2 ^ 32)
    by (split; reflexivity).
  assert (H2 : 0 < SER_RS485_RTS_ON_SEND (Headers := linux_headers) < 2 ^ 32)
    by (split; reflexivity).
  assert (H3 : Z.land (Z.lor (SER_RS485_ENABLED (Headers := linux_headers))
                         (SER_RS485_RTS_ON_SEND (Headers := linux_headers)))
                  (SER_RS485_RX_DURING_TX (Headers := linux_headers)) = 0)
    by reflexivity.
  split; [exact H1 |]. split; [exact H2 |]. split; [exact H3 |].
  destruct (port_setup_default_is_auto linux_headers sample_port H1 H2 H3)
    as (port' & port'' & Hsetup & _ & _ & Hrun & Hfield & _).
  exists port', port''. split; [exact Hsetup |].
  split; [exact Hrun | exact Hfield].
Defined.
